(** * Arabic PDF OCR tool: a shallow embedding of [app.py]

    The script rasterises the pages of an uploaded PDF, sends every page
    image to a remote text-recognition service with an Arabic language
    hint, and offers the recognised text as a plain-text file and as a
    word-processor document.

    Conventions of the embedding.
    - A Python [str] is represented by its UTF-8 encoding, a [string] of
      bytes.  Concatenation and [str.join] commute with the encoding, so
      [txt_output.encode('utf-8')] is the identity on the representation.
    - Calls into third-party libraries (json, google-auth, the Vision
      client, PyMuPDF, Pillow, os.path) are the fields of an environment
      [Env]; each may raise.  Of python-docx the structure of the document
      is modelled; which strings the XML library under it refuses as a
      text node is a field of [Env] too.
    - Everything the user can observe (Streamlit widgets) and every call
      that leaves the process is appended to a trace of [event]s.  An
      exception does not roll the trace back. *)

From Stdlib Require Import List String Ascii Bool Arith ZArith QArith Lia.
From Stdlib Require Import DecimalString DecimalNat.
Import ListNotations.

Local Open Scope nat_scope.
Local Open Scope string_scope.
Local Open Scope list_scope.

(** ** Values *)

Definition bytes := string.

Inductive exn : Type :=
| Exception (msg : string).

(** [str(e)], as interpolated by an f-string. *)
Definition str_exn (e : exn) : string :=
  match e with Exception msg => msg end.

Inductive result (A : Type) : Type :=
| Ok (a : A)
| Raise (e : exn).
Arguments Ok {A} a.
Arguments Raise {A} e.

(** [str(n)] for a non-negative integer. *)
Definition str_nat (n : nat) : string :=
  NilEmpty.string_of_uint (Nat.to_uint n).

(** [int(s)] for a string of decimal digits. *)
Definition nat_of_str (s : string) : option nat :=
  option_map Nat.of_uint (NilEmpty.uint_of_string s).

(** [len(s) == 0], the falsity of a Python string. *)
Definition str_is_empty (s : string) : bool :=
  match s with
  | EmptyString => true
  | String _ _ => false
  end.

(** [sep.join(items)]. *)
Fixpoint str_join (sep : string) (items : list string) : string :=
  match items with
  | [] => EmptyString
  | [x] => x
  | x :: rest => (x ++ sep ++ str_join sep rest)%string
  end.

(** [enumerate(xs)]. *)
Definition enumerate {A : Type} (xs : list A) : list (nat * A) :=
  combine (seq 0 (List.length xs)) xs.

(** [range(n)]. *)
Definition range (n : nat) : list nat := seq 0 n.

(** [a / b] on Python integers: true division, raising on a zero divisor.
    The float result is kept as the exact quotient in lowest terms. *)
Definition true_div (a b : Z) : result Q :=
  if (b =? 0)%Z then Raise (Exception "division by zero")
  else Ok (Qred (inject_Z a / inject_Z b)).

(** ** The remote service's data *)

Record image_context : Type := { language_hints : list string }.

Record annotation : Type := { description : string }.

Record response : Type := { text_annotations : list annotation }.

(** ** The word-processor document

    python-docx keeps the body of a document as a sequence of
    paragraphs.  A paragraph holds runs and an optional alignment; a run
    holds text nodes, tabs and breaks.  [add_paragraph] hands back a
    reference to the paragraph it appended; the reference is the
    paragraph's position, and assigning [alignment] through it updates the
    paragraph in place.  (The [xml:space] attribute that python-docx sets
    on a text node with outer white space is not recorded.) *)

Inductive WD_ALIGN_PARAGRAPH : Type := LEFT | CENTER | RIGHT | JUSTIFY.

Inductive WD_BREAK : Type := LINE | PAGE.

Inductive run_item : Type :=
| r_text (text : string)
| r_tab
| r_break (type : WD_BREAK).

Record paragraph : Type := {
  runs : list (list run_item);
  alignment : option WD_ALIGN_PARAGRAPH
}.

Definition document := list paragraph.

(** [docx.Document()]: the default template has an empty body. *)
Definition Document : document := [].

(** [paragraph.alignment = a], through the reference [paragraph]. *)
Fixpoint set_alignment (doc : document) (paragraph : nat)
                       (a : WD_ALIGN_PARAGRAPH) : document :=
  match doc, paragraph with
  | [], _ => []
  | p :: rest, O => {| runs := runs p; alignment := Some a |} :: rest
  | p :: rest, S k => p :: set_alignment rest k a
  end.

(** [doc.add_page_break()]: python-docx appends a new paragraph, adds an
    empty run to it and puts a page break into that run.  The paragraph
    has no alignment. *)
Definition add_page_break (doc : document) : document :=
  doc ++ [{| runs := [[r_break PAGE]]; alignment := None |}].

(** ** Observable events *)

(** What a download button carries.  The serialised .docx file is
    represented by the document it was saved from. *)
Inductive payload : Type :=
| txt_data (b : bytes)
| docx_data (d : document).

Inductive event : Type :=
| st_spinner_enter (text : string)
| st_spinner_exit
| st_info (body : string)
| st_error (body : string)
| st_success (body : string)
| st_progress (value : Q)
| progress_bar_progress (value : Q)
| st_columns (n : nat)
| st_download_button (label : string) (data : payload)
                     (file_name : string) (mime : string)
| fitz_open_call (stream : bytes) (filetype : string)
| fitz_close_call
| text_detection_call (image : bytes) (ctx : image_context).

Definition trace := list event.

(** ** The libraries the script calls *)

Record pixmap : Type := { width : nat; height : nat; samples : bytes }.

Record Env : Type := {
  credentials_info : Type;
  credentials : Type;
  client : Type;
  pdf_document : Type;
  page : Type;
  image : Type;
  json_loads : string -> result credentials_info;
  from_service_account_info : credentials_info -> result credentials;
  ImageAnnotatorClient : credentials -> result client;
  fitz_open : bytes -> string -> result pdf_document;
  len_pdf : pdf_document -> nat;
  load_page : pdf_document -> nat -> result page;
  get_pixmap : page -> nat -> result pixmap;
  Image_frombytes : string -> nat * nat -> bytes -> result image;
  Image_save : image -> string -> result bytes;
  text_detection : client -> bytes -> image_context -> result response;
  splitext : string -> string * string;
  text_node_error : string -> option exn
}.

(** ** Computations: a trace writer with exceptions *)

Definition M (A : Type) : Type := trace -> result A * trace.

Definition ret {A : Type} (a : A) : M A := fun t => (Ok a, t).

Definition bind {A B : Type} (m : M A) (k : A -> M B) : M B :=
  fun t =>
    match m t with
    | (Ok a, t') => k a t'
    | (Raise e, t') => (Raise e, t')
    end.

Definition emit (ev : event) : M unit := fun t => (Ok tt, t ++ [ev]).

Definition lift {A : Type} (r : result A) : M A := fun t => (r, t).

Declare Scope m_scope.
Delimit Scope m_scope with M.
Notation "x <- m ;; k" := (bind m (fun x => k))
  (at level 61, m at next level, right associativity) : m_scope.
Notation "m ;;; k" := (bind m (fun _ => k))
  (at level 61, right associativity) : m_scope.
Local Open Scope m_scope.

(** [try: body  except Exception as e: handler e]. *)
Definition try_except {A : Type} (body : M A) (handler : exn -> M A) : M A :=
  fun t =>
    match body t with
    | (Ok a, t') => (Ok a, t')
    | (Raise e, t') => handler e t'
    end.

(** [with st.spinner(text): body]: the spinner is removed on the way
    out, also when [body] raises. *)
Definition with_spinner {A : Type} (text : string) (body : M A) : M A :=
  fun t =>
    match body (t ++ [st_spinner_enter text]) with
    | (r, t') => (r, t' ++ [st_spinner_exit])
    end.

(** [for x in xs: s = body x s]. *)
Fixpoint for_ {A S : Type} (xs : list A) (body : A -> S -> M S) (s : S) : M S :=
  match xs with
  | [] => ret s
  | x :: xs' => s' <- body x s ;; for_ xs' body s'
  end.

(** ** Output composition *)

(** The right-to-left embedding character U+202B, in UTF-8. *)
Definition RLE : string :=
  String (ascii_of_nat 226) (String (ascii_of_nat 128)
    (String (ascii_of_nat 171) EmptyString)).

Definition NL : string := String (ascii_of_nat 10) EmptyString.

Definition page_break_separator : string :=
  (NL ++ NL ++ "--- Page Break ---" ++ NL ++ NL)%string.

(** Line 112. *)
Definition txt_output (full_text : list string) : string :=
  (RLE ++ str_join page_break_separator full_text)%string.

(** A loop whose body may raise, outside the trace. *)
Fixpoint for_result {A S : Type} (xs : list A) (body : A -> S -> result S)
                    (s : S) : result S :=
  match xs with
  | [] => Ok s
  | x :: xs' =>
      match body x s with
      | Raise e => Raise e
      | Ok s' => for_result xs' body s'
      end
  end.

(** Setting the text of a run: python-docx walks through the characters;
    a tab becomes a tab element, a newline or a carriage return becomes a
    line break, and the characters in between are collected and put into
    a text node.  Creating the text node raises ([ValueError]) when the
    XML library refuses the string. *)
Definition flush (E : Env) (bfr : string) : result (list run_item) :=
  match bfr with
  | EmptyString => Ok []
  | String _ _ =>
      match text_node_error E bfr with
      | Some e => Raise e
      | None => Ok [r_text bfr]
      end
  end.

Definition TAB : ascii := ascii_of_nat 9.
Definition LF : ascii := ascii_of_nat 10.
Definition CR : ascii := ascii_of_nat 13.

Fixpoint append_to_run_from_text (E : Env) (text : string) (bfr : string)
  : result (list run_item) :=
  match text with
  | EmptyString => flush E bfr
  | String char rest =>
      if Ascii.eqb char TAB then
        match flush E bfr with
        | Raise e => Raise e
        | Ok flushed =>
            match append_to_run_from_text E rest EmptyString with
            | Raise e => Raise e
            | Ok items => Ok (flushed ++ r_tab :: items)
            end
        end
      else if Ascii.eqb char LF || Ascii.eqb char CR then
        match flush E bfr with
        | Raise e => Raise e
        | Ok flushed =>
            match append_to_run_from_text E rest EmptyString with
            | Raise e => Raise e
            | Ok items => Ok (flushed ++ r_break LINE :: items)
            end
        end
      else append_to_run_from_text E rest (bfr ++ String char EmptyString)
  end.

(** [doc.add_paragraph(text)]: a new paragraph without alignment; when
    [text] is not empty it gets one run holding the text.  On an exception
    the document is in an intermediate state that the script never looks
    at; the model returns the exception alone. *)
Definition add_paragraph (E : Env) (doc : document) (text : string)
  : result (document * nat) :=
  if str_is_empty text then
    Ok (doc ++ [{| runs := []; alignment := None |}], List.length doc)
  else
    match append_to_run_from_text E text EmptyString with
    | Raise e => Raise e
    | Ok items =>
        Ok (doc ++ [{| runs := [items]; alignment := None |}], List.length doc)
    end.

(** Lines 115-120. *)
Definition build_doc (E : Env) (full_text : list string) : result document :=
  for_result (enumerate full_text)
    (fun '(i, page_text) doc =>
       match add_paragraph E doc page_text with
       | Raise e => Raise e
       | Ok (doc, paragraph) =>
           let doc := set_alignment doc paragraph RIGHT in
           Ok (if (Z.of_nat i <? Z.of_nat (List.length full_text) - 1)%Z
               then add_page_break doc
               else doc)
       end)
    Document.

(** ** The script

    Lines 14-75 configure the page, print static text and create the
    three input widgets; they have no control flow.  The values the
    widgets return are the arguments of [app]. *)

(** The uploaded file: its name and [getvalue()]. *)
Record UploadedFile : Type := { name : string; getvalue : bytes }.

(** The local variables the pipeline leaves behind on success. *)
Record locals : Type := {
  v_image_list : list bytes;
  v_full_text : list string;
  v_base_filename : string;
  v_txt_output : string;
  v_doc : document
}.

(** The fixed texts of the script. *)
Definition docx_mime : string :=
  "application/vnd.openxmlformats-officedocument.wordprocessingml.document".

Definition missing_key_message : string :=
  "⚠️ Please paste your Google API Key in the sidebar to continue.".

Definition remediation_hint : string :=
  "Please check your API key and make sure the Cloud Vision API is enabled for your project.".

Section Script.

Variable E : Env.

(** Lines 23-38. *)
Definition convert_pdf_to_images (pdf_bytes : bytes) : M (list bytes) :=
  emit (fitz_open_call pdf_bytes "pdf") ;;;
  pdf_document <- lift (fitz_open E pdf_bytes "pdf") ;;
  image_list <-
    for_ (range (len_pdf E pdf_document))
      (fun page_num image_list =>
         page <- lift (load_page E pdf_document page_num) ;;
         pix <- lift (get_pixmap E page 300) ;;
         img <- lift (Image_frombytes E "RGB" (width pix, height pix)
                                      (samples pix)) ;;
         img_byte_arr <- lift (Image_save E img "PNG") ;;
         ret (image_list ++ [img_byte_arr]))
      [] ;;
  emit fitz_close_call ;;;
  ret image_list.

(** Lines 40-50. *)
Definition detect_text_in_image (image_bytes : bytes) (c : client E) : M string :=
  let ctx := {| language_hints := ["ar"] |} in
  emit (text_detection_call image_bytes ctx) ;;;
  response <- lift (text_detection E c image_bytes ctx) ;;
  match text_annotations response with
  | first :: _ => ret (description first)
  | [] => ret EmptyString
  end.

(** Lines 99-104. *)
Definition ocr_loop (image_list : list bytes) (c : client E) : M (list string) :=
  emit (st_progress 0) ;;;
  for_ (enumerate image_list)
    (fun '(i, image_bytes) full_text =>
       text_from_page <- detect_text_in_image image_bytes c ;;
       let full_text := full_text ++ [text_from_page] in
       value <- lift (true_div (Z.of_nat i + 1)
                               (Z.of_nat (List.length image_list))) ;;
       emit (progress_bar_progress value) ;;;
       ret full_text)
    [].

(** Lines 85-87. *)
Definition make_client (api_key_json_str : string) : result (client E) :=
  match json_loads E api_key_json_str with
  | Raise e => Raise e
  | Ok credentials_info =>
      match from_service_account_info E credentials_info with
      | Raise e => Raise e
      | Ok credentials => ImageAnnotatorClient E credentials
      end
  end.

(** Lines 89-124, the body of [with st.spinner(...)]. *)
Definition process_pdf (uploaded_file : UploadedFile) (c : client E) : M locals :=
  with_spinner "Processing your PDF... This may take a few moments."
    (let pdf_bytes := getvalue uploaded_file in
     emit (st_info "Step 1/3: Converting PDF pages to images...") ;;;
     image_list <- convert_pdf_to_images pdf_bytes ;;
     emit (st_info ("Step 2/3: Sending " ++ str_nat (List.length image_list)
                    ++ " pages to Google for OCR...")%string) ;;;
     full_text <- ocr_loop image_list c ;;
     emit (st_info "Step 3/3: Preparing your files for download...") ;;;
     let base_filename := fst (splitext E (name uploaded_file)) in
     let txt_output := txt_output full_text in
     doc <- lift (build_doc E full_text) ;;
     ret {| v_image_list := image_list;
            v_full_text := full_text;
            v_base_filename := base_filename;
            v_txt_output := txt_output;
            v_doc := doc |}).

(** Lines 85-143, the body of [try]. *)
Definition try_body (api_key_json_str : string) (uploaded_file : UploadedFile)
  : M locals :=
  c <- lift (make_client api_key_json_str) ;;
  v <- process_pdf uploaded_file c ;;
  emit (st_success "✅ Success! Your files are ready for download.") ;;;
  emit (st_columns 2) ;;;
  emit (st_download_button "📥 Download as TXT"
          (txt_data (v_txt_output v))
          (v_base_filename v ++ "_OCR.txt")%string "text/plain") ;;;
  emit (st_download_button "📥 Download as DOCX"
          (docx_data (v_doc v))
          (v_base_filename v ++ "_OCR.docx")%string docx_mime) ;;;
  ret v.

(** Lines 145-147. *)
Definition except_handler (e : exn) : M unit :=
  emit (st_error ("An error occurred: " ++ str_exn e)%string) ;;;
  emit (st_error remediation_hint).

(** Lines 77-147.  The arguments are what the three widgets returned:
    the text area, the file uploader and the start button. *)
Definition app (api_key_json_str : string) (uploaded_file : option UploadedFile)
               (start_clicked : bool) : M unit :=
  match uploaded_file with
  | None => ret tt
  | Some uploaded_file =>
      if start_clicked then
        if str_is_empty api_key_json_str then
          emit (st_error missing_key_message)
        else
          try_except
            (try_body api_key_json_str uploaded_file ;;; ret tt)
            except_handler
      else ret tt
  end.

End Script.

(** ** Reference descriptions used in the statements *)

(** The pages joined the way the specification words it: start from the
    first page and, for every further page, append the separator and then
    the page. *)
Definition pages_joined (sep : string) (pages : list string) : string :=
  match pages with
  | [] => EmptyString
  | p :: rest => fold_left (fun out q => (out ++ sep ++ q)%string) rest p
  end.

Definition total_length (pages : list string) : nat :=
  fold_right (fun p n => String.length p + n) 0 pages.

(** The paragraph that holds nothing but a page break. *)
Definition page_break_paragraph : paragraph :=
  {| runs := [[r_break PAGE]]; alignment := None |}.

(** The items of the run made from a non-empty text, when the XML library
    refuses none of its text nodes: the text cut at tabs, newlines and
    carriage returns. *)
Fixpoint items_of_text (text : string) (bfr : string) : list run_item :=
  match text with
  | EmptyString =>
      match bfr with EmptyString => [] | String _ _ => [r_text bfr] end
  | String char rest =>
      if Ascii.eqb char TAB then
        match bfr with EmptyString => [] | String _ _ => [r_text bfr] end
        ++ r_tab :: items_of_text rest EmptyString
      else if Ascii.eqb char LF || Ascii.eqb char CR then
        match bfr with EmptyString => [] | String _ _ => [r_text bfr] end
        ++ r_break LINE :: items_of_text rest EmptyString
      else items_of_text rest (bfr ++ String char EmptyString)
  end.

(** The paragraph of a page: right-aligned, empty for a blank page and
    otherwise one run holding the page text. *)
Definition page_paragraph (text : string) : paragraph :=
  {| runs := if str_is_empty text then []
             else [items_of_text text EmptyString];
     alignment := Some RIGHT |}.

(** The paragraphs of the pages with a page-break paragraph between
    consecutive ones. *)
Fixpoint with_page_breaks (ps : list paragraph) : document :=
  match ps with
  | [] => []
  | [p] => [p]
  | p :: rest => p :: page_break_paragraph :: with_page_breaks rest
  end.

(** The library takes the page text: none of its text nodes is refused. *)
Definition text_accepted (E : Env) (text : string) : bool :=
  if str_is_empty text then true
  else match append_to_run_from_text E text EmptyString with
       | Ok _ => true
       | Raise _ => false
       end.

Definition holds_page_break (p : paragraph) : bool :=
  existsb (existsb (fun item =>
                      match item with r_break PAGE => true | _ => false end))
          (runs p).

Definition right_aligned (p : paragraph) : Prop := alignment p = Some RIGHT.

(** The paragraphs that hold a page break, and the others. *)
Definition page_breaks (doc : document) : list paragraph :=
  filter holds_page_break doc.

Definition text_paragraphs (doc : document) : list paragraph :=
  filter (fun p => negb (holds_page_break p)) doc.

(** ** The value of each step, without the trace *)

Section Steps.

Variable E : Env.

(** The language hint of every request. *)
Definition arabic : image_context := {| language_hints := ["ar"] |}.

(** One turn of the loop of [convert_pdf_to_images]. *)
Definition render_page (d : pdf_document E) (page_num : nat) : result bytes :=
  match load_page E d page_num with
  | Raise e => Raise e
  | Ok page =>
      match get_pixmap E page 300 with
      | Raise e => Raise e
      | Ok pix =>
          match Image_frombytes E "RGB" (width pix, height pix) (samples pix) with
          | Raise e => Raise e
          | Ok img => Image_save E img "PNG"
          end
      end
  end.

Fixpoint render_pages (d : pdf_document E) (page_nums : list nat)
  : result (list bytes) :=
  match page_nums with
  | [] => Ok []
  | i :: rest =>
      match render_page d i with
      | Raise e => Raise e
      | Ok png =>
          match render_pages d rest with
          | Raise e => Raise e
          | Ok pngs => Ok (png :: pngs)
          end
      end
  end.

Definition rasterize (pdf_bytes : bytes) : result (list bytes) :=
  match fitz_open E pdf_bytes "pdf" with
  | Raise e => Raise e
  | Ok d => render_pages d (range (len_pdf E d))
  end.

(** What [detect_text_in_image] makes of a response. *)
Definition page_text (r : response) : string :=
  match text_annotations r with
  | first :: _ => description first
  | [] => EmptyString
  end.

Definition recognise (c : client E) (image_bytes : bytes) : result string :=
  match text_detection E c image_bytes arabic with
  | Raise e => Raise e
  | Ok r => Ok (page_text r)
  end.

Fixpoint recognise_all (c : client E) (images : list bytes)
  : result (list string) :=
  match images with
  | [] => Ok []
  | img :: rest =>
      match recognise c img with
      | Raise e => Raise e
      | Ok text =>
          match recognise_all c rest with
          | Raise e => Raise e
          | Ok texts => Ok (text :: texts)
          end
      end
  end.

(** The progress value shown after page [k] of [n] (1-based). *)
Definition fraction (k n : nat) : Q :=
  Qred (inject_Z (Z.of_nat k) / inject_Z (Z.of_nat n)).

(** The events of the recognition loop over [items], the still pending
    part of [enumerate(image_list)], where [n = len(image_list)]: a
    request for each page up to and including the first one that fails, a
    progress update after each page that succeeded. *)
Fixpoint ocr_events (c : client E) (n : nat) (items : list (nat * bytes))
  : trace :=
  match items with
  | [] => []
  | (i, img) :: rest =>
      text_detection_call img arabic ::
      match recognise c img with
      | Raise _ => []
      | Ok _ => progress_bar_progress (fraction (i + 1) n) :: ocr_events c n rest
      end
  end.

End Steps.

(** ** Reading a trace *)

Definition is_download (ev : event) : bool :=
  match ev with st_download_button _ _ _ _ => true | _ => false end.

Definition is_error (ev : event) : bool :=
  match ev with st_error _ => true | _ => false end.

Definition is_rasterizer_call (ev : event) : bool :=
  match ev with fitz_open_call _ _ => true | _ => false end.

Definition is_ocr_call (ev : event) : bool :=
  match ev with text_detection_call _ _ => true | _ => false end.

(** The calls that leave the script for the rasterizer or the remote
    service, in the order they were made. *)
Definition external_calls (t : trace) : trace :=
  filter (fun ev => is_rasterizer_call ev || is_ocr_call ev) t.

(** The values passed to [progress_bar.progress]. *)
Definition progress_reports (t : trace) : list Q :=
  flat_map (fun ev => match ev with progress_bar_progress v => [v] | _ => [] end) t.

(** The payloads offered for download. *)
Definition downloads (t : trace) : list payload :=
  flat_map (fun ev => match ev with st_download_button _ d _ _ => [d] | _ => [] end) t.

(** A request, if the event is one, carries the Arabic language hint. *)
Definition hinted_arabic (ev : event) : Prop :=
  forall img ctx, ev = text_detection_call img ctx -> language_hints ctx = ["ar"].

(** ** A small environment to run the script on

    A "PDF" is the four bytes [%PDF] followed by one byte per page; a page
    renders to the one-byte image holding that byte.  The service reads
    the byte back, finds nothing on a blank page (a space) and refuses a
    page holding [!]. *)

Definition demo_open (stream : bytes) (filetype : string) : result (list ascii) :=
  if String.prefix "%PDF" stream
  then Ok (list_ascii_of_string (substring 4 (String.length stream - 4) stream))
  else Raise (Exception "Failed to open stream").

Definition demo_text_detection (c : unit) (img : bytes) (ctx : image_context)
  : result response :=
  if String.eqb img " " then Ok {| text_annotations := [] |}
  else if String.eqb img "!" then Raise (Exception "429 Quota exceeded")
  else Ok {| text_annotations :=
               [ {| description := img |}; {| description := "word" |} ] |}.

(** The XML library of the demo refuses a text node that holds a byte
    below 32 (a NUL byte or a control character). *)
Definition demo_text_node_error (s : string) : option exn :=
  if forallb (fun a => Nat.leb 32 (nat_of_ascii a)) (list_ascii_of_string s)
  then None
  else Some (Exception "All strings must be XML compatible: Unicode or ASCII, no NULL bytes or control characters").

Definition demo_splitext (p : string) : string * string :=
  let n := String.length p in
  if String.eqb (substring (n - 4) 4 p) ".pdf"
  then (substring 0 (n - 4) p, ".pdf")
  else (p, EmptyString).

Definition demo_env : Env := {|
  credentials_info := string;
  credentials := string;
  client := unit;
  pdf_document := list ascii;
  page := ascii;
  image := bytes;
  json_loads := fun s =>
    if String.prefix "{" s then Ok s
    else Raise (Exception "Expecting value: line 1 column 1 (char 0)");
  from_service_account_info := fun info => Ok info;
  ImageAnnotatorClient := fun _ => Ok tt;
  fitz_open := demo_open;
  len_pdf := fun d => List.length d;
  load_page := fun d n =>
    match nth_error d n with
    | Some p => Ok p
    | None => Raise (Exception "page not in document")
    end;
  get_pixmap := fun p dpi =>
    Ok {| width := 1; height := 1; samples := String p EmptyString |};
  Image_frombytes := fun mode size data => Ok data;
  Image_save := fun img format => Ok img;
  text_detection := demo_text_detection;
  splitext := demo_splitext;
  text_node_error := demo_text_node_error
|}.

(** A second service for the same pages: it answers in upper case for
    pages the first one does not know, and its libraries differ. *)
Definition demo_env' : Env := {|
  credentials_info := unit;
  credentials := unit;
  client := nat;
  pdf_document := list ascii;
  page := ascii;
  image := bytes;
  json_loads := fun s => Ok tt;
  from_service_account_info := fun info => Ok tt;
  ImageAnnotatorClient := fun _ => Ok 7;
  fitz_open := demo_open;
  len_pdf := fun d => List.length d;
  load_page := fun d n =>
    match nth_error d n with
    | Some p => Ok p
    | None => Raise (Exception "page not in document")
    end;
  get_pixmap := fun p dpi =>
    Ok {| width := 2; height := 2; samples := String p (String p EmptyString) |};
  Image_frombytes := fun mode size data => Ok data;
  Image_save := fun img format => Ok img;
  text_detection := fun c img ctx =>
    demo_text_detection tt (substring 0 1 img) ctx;
  splitext := fun p => (p, EmptyString);
  text_node_error := fun s => None
|}.

Definition demo_key : string := "{ }".

(** ** The three phases of a run, as the user sees them *)

Definition spinner_text : string :=
  "Processing your PDF... This may take a few moments.".

(** Step 1/3; [closed] tells whether the document was read to its end. *)
Definition rasterization_events (pdf_bytes : bytes) (closed : bool) : trace :=
  [st_info "Step 1/3: Converting PDF pages to images...";
   fitz_open_call pdf_bytes "pdf"]
  ++ (if closed then [fitz_close_call] else []).

(** Step 2/3. *)
Definition recognition_events (E : Env) (c : client E) (image_list : list bytes)
  : trace :=
  st_info ("Step 2/3: Sending " ++ str_nat (List.length image_list)
           ++ " pages to Google for OCR...")%string
  :: st_progress 0
  :: ocr_events E c (List.length image_list) (enumerate image_list).

(** Step 3/3 and the download buttons. *)
Definition composition_events (v : locals) : trace :=
  [st_info "Step 3/3: Preparing your files for download...";
   st_spinner_exit;
   st_success "✅ Success! Your files are ready for download.";
   st_columns 2;
   st_download_button "📥 Download as TXT" (txt_data (v_txt_output v))
     (v_base_filename v ++ "_OCR.txt")%string "text/plain";
   st_download_button "📥 Download as DOCX" (docx_data (v_doc v))
     (v_base_filename v ++ "_OCR.docx")%string docx_mime].

(** The two lines of the [except] clause. *)
Definition error_report (e : exn) : trace :=
  [st_error ("An error occurred: " ++ str_exn e)%string;
   st_error remediation_hint].

(** The local variables after a run over [image_list] that recognised
    [full_text] and composed [doc]. *)
Definition locals_of (E : Env) (uploaded_file : UploadedFile)
           (image_list : list bytes) (full_text : list string)
           (doc : document) : locals :=
  {| v_image_list := image_list;
     v_full_text := full_text;
     v_base_filename := fst (splitext E (name uploaded_file));
     v_txt_output := txt_output full_text;
     v_doc := doc |}.

(** ** Auxiliary notions for the statements about failing runs *)

(** The calls a complete run makes, one per step and in order: the
    rasterizer once, then the service once for each page image. *)
Definition planned_calls (E : Env) (pdf_bytes : bytes) : trace :=
  fitz_open_call pdf_bytes "pdf"
  :: match rasterize E pdf_bytes with
     | Ok image_list => map (fun img => text_detection_call img arabic) image_list
     | Raise _ => []
     end.

(** The same libraries and the same service, except that every answer of
    the service is rewritten by [f] before the script sees it. *)
Definition with_answers (E : Env) (f : response -> response) : Env := {|
  credentials_info := credentials_info E;
  credentials := credentials E;
  client := client E;
  pdf_document := pdf_document E;
  page := page E;
  image := image E;
  json_loads := json_loads E;
  from_service_account_info := from_service_account_info E;
  ImageAnnotatorClient := ImageAnnotatorClient E;
  fitz_open := fitz_open E;
  len_pdf := len_pdf E;
  load_page := load_page E;
  get_pixmap := get_pixmap E;
  Image_frombytes := Image_frombytes E;
  Image_save := Image_save E;
  text_detection := fun c img ctx =>
    match text_detection E c img ctx with
    | Ok r => Ok (f r)
    | Raise e => Raise e
    end;
  splitext := splitext E;
  text_node_error := text_node_error E
|}.

(** The page texts as a function of the service's answers alone. *)
Fixpoint texts_of_answers (answers : list (result response))
  : result (list string) :=
  match answers with
  | [] => Ok []
  | Raise e :: _ => Raise e
  | Ok r :: rest =>
      match texts_of_answers rest with
      | Raise e => Raise e
      | Ok texts => Ok (page_text r :: texts)
      end
  end.

(** A four-page upload whose third page is blank. *)
Definition demo_file : UploadedFile :=
  {| name := "scan.pdf"; getvalue := "%PDFab c" |}.

(** An upload whose second page the demo service refuses. *)
Definition demo_file_refused : UploadedFile :=
  {| name := "scan.pdf"; getvalue := "%PDFa!c" |}.

(** An upload without pages. *)
Definition demo_file_empty : UploadedFile :=
  {| name := "empty.pdf"; getvalue := "%PDF" |}.

(** An upload that is not a PDF. *)
Definition demo_file_broken : UploadedFile :=
  {| name := "notes.txt"; getvalue := "hello" |}.

(** ** Reading the plain-text file back *)

(** [s.split(sep)] for a non-empty [sep]: the pieces of [s] between the
    occurrences of [sep], found from left to right without overlap.
    [skip] counts the bytes of a separator that was just found and are
    still to be passed over. *)
Fixpoint split_from (sep : string) (skip : nat) (s : string) : list string :=
  match s with
  | EmptyString => [EmptyString]
  | String a s' =>
      match skip with
      | S k => split_from sep k s'
      | O =>
          if String.prefix sep s
          then EmptyString :: split_from sep (String.length sep - 1) s'
          else match split_from sep 0 s' with
               | piece :: pieces => String a piece :: pieces
               | [] => [String a EmptyString]
               end
      end
  end.

Definition str_split (s sep : string) : list string := split_from sep 0 s.

(** The text holds no hyphen-minus. *)
Fixpoint dash_free (s : string) : bool :=
  match s with
  | EmptyString => true
  | String a s' => negb (Ascii.eqb a "-") && dash_free s'
  end.

(** What a reader of the downloaded text recovers: the text after the
    three bytes of the marker, cut at the separators. *)
Definition read_pages (txt : string) : list string :=
  str_split (substring 3 (String.length txt - 3) txt) page_break_separator.

(** ** Proof automation *)

(** Unfold the primitive computations. *)
Ltac step_monad := unfold bind, lift, emit, ret.

(** Close a goal [hinted_arabic ev] for an event that is not a request. *)
Ltac not_a_request := intros ? ? Heq; discriminate Heq.

(** ** Further readings of a trace *)

From Stdlib Require Import Sorted.

Definition is_success (ev : event) : bool :=
  match ev with st_success _ => true | _ => false end.

Definition is_spinner (ev : event) : bool :=
  match ev with
  | st_spinner_enter _ => true
  | st_spinner_exit => true
  | _ => false
  end.

Definition is_close (ev : event) : bool :=
  match ev with fitz_close_call => true | _ => false end.

Definition is_ok {A : Type} (r : result A) : bool :=
  match r with Ok _ => true | Raise _ => false end.

(** The four events that end a successful run. *)
Definition success_tail (v : locals) : trace :=
  [st_success "✅ Success! Your files are ready for download.";
   st_columns 2;
   st_download_button "📥 Download as TXT" (txt_data (v_txt_output v))
     (v_base_filename v ++ "_OCR.txt")%string "text/plain";
   st_download_button "📥 Download as DOCX" (docx_data (v_doc v))
     (v_base_filename v ++ "_OCR.docx")%string docx_mime].

(** The request for one page image. *)
Definition request (img : bytes) : event := text_detection_call img arabic.

(** ** A rasterizer that cannot read some pages

    As [demo_env], except that a page holding [?] has no pixmap. *)
Definition demo_env_unreadable : Env := {|
  credentials_info := string;
  credentials := string;
  client := unit;
  pdf_document := list ascii;
  page := ascii;
  image := bytes;
  json_loads := json_loads demo_env;
  from_service_account_info := fun info => Ok info;
  ImageAnnotatorClient := fun _ => Ok tt;
  fitz_open := demo_open;
  len_pdf := fun d => List.length d;
  load_page := fun d n =>
    match nth_error d n with
    | Some p => Ok p
    | None => Raise (Exception "page not in document")
    end;
  get_pixmap := fun p dpi =>
    if Ascii.eqb p "?" then Raise (Exception "cannot render page")
    else Ok {| width := 1; height := 1; samples := String p EmptyString |};
  Image_frombytes := fun mode size data => Ok data;
  Image_save := fun img format => Ok img;
  text_detection := demo_text_detection;
  splitext := demo_splitext;
  text_node_error := demo_text_node_error
|}.

(** An upload whose third page cannot be rendered. *)
Definition demo_file_unreadable : UploadedFile :=
  {| name := "scan.pdf"; getvalue := "%PDFab?d" |}.

(** A four-page upload whose third page the demo service refuses. *)
Definition demo_file_third_refused : UploadedFile :=
  {| name := "scan.pdf"; getvalue := "%PDFab!d" |}.

Definition is_info (ev : event) : bool :=
  match ev with st_info _ => true | _ => false end.

(** An event with the file name of a download button blanked. *)
Definition forget_file_name (ev : event) : event :=
  match ev with
  | st_download_button label data _ mime =>
      st_download_button label data EmptyString mime
  | _ => ev
  end.

(** The three status lines of a run over [N] page images. *)
Definition status_lines (N : nat) : trace :=
  [st_info "Step 1/3: Converting PDF pages to images...";
   st_info ("Step 2/3: Sending " ++ str_nat N
            ++ " pages to Google for OCR...")%string;
   st_info "Step 3/3: Preparing your files for download..."].

(** An upload whose second page is answered with a text that holds a
    control character (byte 1). *)
Definition demo_file_control : UploadedFile :=
  {| name := "scan.pdf";
     getvalue := ("%PDFa" ++ String (ascii_of_nat 1) "c")%string |}.

(** ** Reading a paragraph back *)

(** The text of a run item, as [paragraph.text] gives it for text, tabs
    and line breaks. *)
Definition item_text (item : run_item) : string :=
  match item with
  | r_text s => s
  | r_tab => String TAB EmptyString
  | r_break LINE => String LF EmptyString
  | r_break PAGE => EmptyString
  end.

(** [''.join(pieces)]. *)
Definition str_concat (pieces : list string) : string :=
  fold_right String.append EmptyString pieces.

Definition paragraph_text (p : paragraph) : string :=
  str_concat (map (fun run => str_concat (map item_text run)) (runs p)).

(** The text with every carriage return replaced by a newline. *)
Fixpoint normalise_newlines (s : string) : string :=
  match s with
  | EmptyString => EmptyString
  | String a rest =>
      String (if Ascii.eqb a CR then LF else a) (normalise_newlines rest)
  end.

(** * Properties *)

(** ** Output composition: the plain-text form *)

Lemma str_append_assoc (a b c : string) :
  ((a ++ b) ++ c)%string = (a ++ b ++ c)%string.
Proof. induction a as [|x a IH]; simpl; [reflexivity | now rewrite IH]. Qed.

Lemma str_append_nil_r (a : string) : (a ++ EmptyString)%string = a.
Proof. induction a as [|x a IH]; simpl; [reflexivity | now rewrite IH]. Qed.

Lemma str_length_append (a b : string) :
  String.length (a ++ b) = String.length a + String.length b.
Proof. induction a as [|x a IH]; simpl; [reflexivity | now rewrite IH]. Qed.

Lemma str_join_cons2 (sep p q : string) (rest : list string) :
  str_join sep (p :: q :: rest) = (p ++ sep ++ str_join sep (q :: rest))%string.
Proof. reflexivity. Qed.

(** Joining is the same whether the separators are placed from the left
    (an accumulating loop) or from the right (the recursion of
    [str_join]). *)
Lemma fold_left_join (sep : string) (rest : list string) (p : string) :
  fold_left (fun out q => (out ++ sep ++ q)%string) rest p
  = str_join sep (p :: rest).
Proof.
  revert p. induction rest as [|q rest IH]; intros p.
  - reflexivity.
  - cbn [fold_left]. rewrite IH.
    destruct rest as [|r rest].
    + reflexivity.
    + rewrite !str_join_cons2. now rewrite !str_append_assoc.
Qed.

Lemma str_join_snoc (sep a p : string) (front : list string) :
  str_join sep ((a :: front) ++ [p])
  = (str_join sep (a :: front) ++ sep ++ p)%string.
Proof.
  revert a. induction front as [|b front IH]; intros a.
  - reflexivity.
  - change ((a :: b :: front) ++ [p]) with (a :: ((b :: front) ++ [p])).
    change ((b :: front) ++ [p]) with (b :: (front ++ [p])) at 1.
    rewrite str_join_cons2.
    change (b :: (front ++ [p])) with ((b :: front) ++ [p]).
    rewrite IH, str_join_cons2. now rewrite !str_append_assoc.
Qed.

Lemma str_join_length (sep : string) (pages : list string) :
  String.length (str_join sep pages)
  = total_length pages + String.length sep * (List.length pages - 1).
Proof.
  induction pages as [|p rest IH].
  - simpl. lia.
  - destruct rest as [|q rest].
    + simpl. lia.
    + rewrite str_join_cons2, !str_length_append, IH.
      cbn [total_length fold_right List.length]. lia.
Qed.

Lemma txt_output_length (full_text : list string) :
  String.length (txt_output full_text)
  = 3 + total_length full_text + 22 * (List.length full_text - 1).
Proof.
  unfold txt_output. rewrite str_length_append, str_join_length.
  change (String.length RLE) with 3.
  change (String.length page_break_separator) with 22. lia.
Qed.

(** C2.  The plain-text output is the right-to-left embedding character
    followed by the page texts joined with the literal separator: built
    page after page it is the same string; nothing but the marker precedes
    the first page, nothing follows the last page, and every further page
    adds exactly one separator in front of it, so that the separators take
    22 bytes for each page but the first. *)
Theorem C2_txt_output_marker_then_joined :
  (forall full_text,
      txt_output full_text
      = (RLE ++ pages_joined page_break_separator full_text)%string)
  /\ txt_output [] = RLE
  /\ (forall p, txt_output [p] = (RLE ++ p)%string)
  /\ (forall p q rest,
         txt_output (p :: q :: rest)
         = (RLE ++ p ++ page_break_separator
                ++ str_join page_break_separator (q :: rest))%string)
  /\ (forall a front p,
         txt_output ((a :: front) ++ [p])
         = (txt_output (a :: front) ++ page_break_separator ++ p)%string)
  /\ (forall full_text,
         String.length (txt_output full_text)
         = 3 + total_length full_text + 22 * (List.length full_text - 1))
  /\ list_ascii_of_string page_break_separator
     = map ascii_of_nat
         [10; 10; 45; 45; 45; 32; 80; 97; 103; 101; 32; 66; 114; 101; 97;
          107; 32; 45; 45; 45; 10; 10].
Proof.
  refine (conj _ (conj _ (conj _ (conj _ (conj _ (conj _ _)))))).
  - intros [|p rest]; [reflexivity|].
    unfold txt_output, pages_joined. now rewrite fold_left_join.
  - reflexivity.
  - reflexivity.
  - intros p q rest. reflexivity.
  - intros a front p. unfold txt_output.
    now rewrite str_join_snoc, str_append_assoc.
  - exact txt_output_length.
  - reflexivity.
Qed.

(** ** Reading the plain-text file back

    For pages without a hyphen-minus the only separators in the file are
    the ones the script put there, and cutting the file at them recovers
    the pages. *)

Lemma separator_head :
  exists tail,
    page_break_separator
    = String (ascii_of_nat 10) (String (ascii_of_nat 10) (String "-" tail)).
Proof. eexists. reflexivity. Qed.

Lemma prefix_third (s : string) :
  String.prefix page_break_separator s = true ->
  exists a b t, s = String a (String b (String "-" t)).
Proof.
  destruct separator_head as [tail ->].
  destruct s as [|a [|b [|c t]]]; cbn [String.prefix]; try discriminate.
  - destruct (ascii_dec (ascii_of_nat 10) a); discriminate.
  - destruct (ascii_dec (ascii_of_nat 10) a); [|discriminate].
    destruct (ascii_dec (ascii_of_nat 10) b); discriminate.
  - destruct (ascii_dec (ascii_of_nat 10) a); [|discriminate].
    destruct (ascii_dec (ascii_of_nat 10) b); [|discriminate].
    destruct (ascii_dec "-" c) as [<-|]; [|discriminate].
    intros _. now exists a, b, t.
Qed.

Lemma prefix_append (x s : string) : String.prefix x (x ++ s) = true.
Proof.
  induction x as [|a x IH]; [now destruct s|].
  cbn [append String.prefix]. now destruct (ascii_dec a a).
Qed.

Lemma split_from_skip (sep x s : string) :
  split_from sep (String.length x) (x ++ s) = split_from sep 0 s.
Proof. induction x as [|a x IH]; [reflexivity | exact IH]. Qed.

(** Inside a page without hyphen-minus, no separator starts: neither
    within the page nor across its end into what follows. *)
Lemma no_separator_in_page (a : ascii) (p s : string) :
  dash_free (String a p) = true ->
  (s = EmptyString \/ exists s', s = (page_break_separator ++ s')%string) ->
  String.prefix page_break_separator (String a p ++ s) = false.
Proof.
  intros Hfree Hs.
  destruct (String.prefix page_break_separator (String a p ++ s)) eqn:Hpre;
    [|reflexivity].
  exfalso. apply prefix_third in Hpre. destruct Hpre as (a0 & b & t & Heq).
  cbn [dash_free] in Hfree. apply andb_prop in Hfree. destruct Hfree as [_ Hp].
  cbn [append] in Heq. injection Heq as _ Heq.
  destruct separator_head as [tail Hsep].
  destruct p as [|b' [|c p'']]; cbn [append] in Heq.
  - destruct Hs as [-> | [s' ->]]; [discriminate|].
    rewrite Hsep in Heq. cbn [append] in Heq. discriminate.
  - destruct Hs as [-> | [s' ->]]; [discriminate|].
    rewrite Hsep in Heq. cbn [append] in Heq. discriminate.
  - injection Heq as _ Hc _. subst c.
    cbn [dash_free] in Hp. rewrite Ascii.eqb_refl in Hp.
    cbn in Hp. rewrite andb_false_r in Hp. discriminate.
Qed.

Lemma split_page_then_separator (p s : string) :
  dash_free p = true ->
  split_from page_break_separator 0 (p ++ page_break_separator ++ s)
  = p :: split_from page_break_separator 0 s.
Proof.
  intros Hfree. induction p as [|a p IH].
  - cbn [append].
    destruct separator_head as [tail Hsep].
    remember page_break_separator as sep eqn:Hdef.
    destruct sep as [|a0 sep']; [discriminate|].
    cbn [append split_from].
    pose proof (prefix_append (String a0 sep') s) as Hfound.
    cbn [append] in Hfound. rewrite Hfound.
    replace (String.length (String a0 sep') - 1) with (String.length sep')
      by (cbn [String.length]; lia).
    now rewrite split_from_skip.
  - change (split_from page_break_separator 0
              (String a (p ++ page_break_separator ++ s))
            = String a p :: split_from page_break_separator 0 s).
    cbn [split_from].
    change (String a (p ++ page_break_separator ++ s))
      with (String a p ++ page_break_separator ++ s)%string.
    rewrite (no_separator_in_page a p _ Hfree) by (right; now exists s).
    cbn [dash_free] in Hfree. apply andb_prop in Hfree.
    now rewrite (IH (proj2 Hfree)).
Qed.

Lemma split_last_page (p : string) :
  dash_free p = true ->
  split_from page_break_separator 0 p = [p].
Proof.
  intros Hfree. induction p as [|a p IH]; [reflexivity|].
  cbn [split_from].
  pose proof (no_separator_in_page a p EmptyString Hfree (or_introl eq_refl))
    as Hno.
  rewrite str_append_nil_r in Hno. rewrite Hno.
  cbn [dash_free] in Hfree. apply andb_prop in Hfree.
  now rewrite (IH (proj2 Hfree)).
Qed.

Lemma str_split_join (p : string) (rest : list string) :
  forallb dash_free (p :: rest) = true ->
  str_split (str_join page_break_separator (p :: rest)) page_break_separator
  = p :: rest.
Proof.
  unfold str_split. revert p.
  induction rest as [|q rest IH]; intros p Hfree;
    cbn [forallb] in Hfree; apply andb_prop in Hfree; destruct Hfree as [Hp Hrest].
  - now apply split_last_page.
  - rewrite str_join_cons2, (split_page_then_separator p _ Hp).
    now rewrite (IH q Hrest).
Qed.

Lemma substring_all (s : string) : substring 0 (String.length s) s = s.
Proof. induction s as [|a s IH]; [reflexivity | cbn; now rewrite IH]. Qed.

(** From a file of at least one page, all pages free of hyphen-minus,
    the reader recovers exactly the pages, in order. *)
Lemma read_pages_txt_output (p : string) (rest : list string) :
  forallb dash_free (p :: rest) = true ->
  read_pages (txt_output (p :: rest)) = p :: rest.
Proof.
  intros Hfree. unfold read_pages, txt_output.
  rewrite str_length_append. change (String.length RLE) with 3.
  replace (3 + String.length (str_join page_break_separator (p :: rest)) - 3)
    with (String.length (str_join page_break_separator (p :: rest))) by lia.
  change (substring 3 ?n (RLE ++ ?x)%string) with (substring 0 n x).
  rewrite substring_all. now apply str_split_join.
Qed.

(** A file without pages and a file of one blank page are the same
    file; read back, it shows one blank page. *)
Lemma txt_output_no_page_or_blank_page :
  txt_output [] = txt_output [EmptyString]
  /\ read_pages (txt_output []) = [EmptyString].
Proof. split; reflexivity. Qed.

(** ** Output composition: the structured form *)

(** Assigning through the reference returned by [add_paragraph] reaches
    the paragraph that was just appended. *)
Lemma set_alignment_last (doc : document) (p : paragraph) (a : WD_ALIGN_PARAGRAPH) :
  set_alignment (doc ++ [p]) (List.length doc) a
  = doc ++ [{| runs := runs p; alignment := Some a |}].
Proof. induction doc as [|x doc IH]; simpl; [reflexivity | now rewrite IH]. Qed.

Lemma flush_accepted (E : Env) (bfr : string) (items : list run_item) :
  flush E bfr = Ok items ->
  items = match bfr with EmptyString => [] | String _ _ => [r_text bfr] end.
Proof.
  destruct bfr as [|a bfr]; cbn [flush].
  - now intros [= <-].
  - destruct (text_node_error E (String a bfr)); [discriminate|].
    now intros [= <-].
Qed.

(** When no text node is refused, the run holds the text cut at tabs,
    newlines and carriage returns, whatever the library. *)
Lemma append_to_run_from_text_accepted (E : Env) (text : string) :
  forall bfr items,
    append_to_run_from_text E text bfr = Ok items ->
    items = items_of_text text bfr.
Proof.
  induction text as [|char rest IH]; intros bfr items H.
  - cbn [append_to_run_from_text items_of_text] in *.
    now apply (flush_accepted E).
  - cbn [append_to_run_from_text items_of_text] in *.
    destruct (Ascii.eqb char TAB).
    + destruct (flush E bfr) as [flushed|e] eqn:Hf; [|discriminate].
      destruct (append_to_run_from_text E rest EmptyString) as [its|e] eqn:Hr;
        [|discriminate].
      injection H as <-.
      now rewrite (flush_accepted E bfr flushed Hf), (IH _ _ Hr).
    + destruct (Ascii.eqb char LF || Ascii.eqb char CR).
      * destruct (flush E bfr) as [flushed|e] eqn:Hf; [|discriminate].
        destruct (append_to_run_from_text E rest EmptyString) as [its|e] eqn:Hr;
          [|discriminate].
        injection H as <-.
        now rewrite (flush_accepted E bfr flushed Hf), (IH _ _ Hr).
      * now apply IH.
Qed.

(** One turn of the loop of lines 116-120 on an accepted page text. *)
Lemma add_paragraph_accepted (E : Env) (doc : document) (text : string) :
  text_accepted E text = true ->
  add_paragraph E doc text
  = Ok (doc ++ [{| runs := runs (page_paragraph text); alignment := None |}],
        List.length doc).
Proof.
  unfold text_accepted, add_paragraph, page_paragraph. cbn [runs].
  destruct (str_is_empty text); [reflexivity|].
  destruct (append_to_run_from_text E text EmptyString) as [items|e] eqn:H;
    [|discriminate].
  intros _. now rewrite (append_to_run_from_text_accepted E text _ _ H).
Qed.

Lemma add_paragraph_refused (E : Env) (doc : document) (text : string) :
  text_accepted E text = false ->
  exists e, add_paragraph E doc text = Raise e
            /\ append_to_run_from_text E text EmptyString = Raise e.
Proof.
  unfold text_accepted, add_paragraph.
  destruct (str_is_empty text); [discriminate|].
  destruct (append_to_run_from_text E text EmptyString) as [items|e];
    [discriminate|].
  intros _. now exists e.
Qed.

Lemma with_page_breaks_cons2 (p q : paragraph) (rest : list paragraph) :
  with_page_breaks (p :: q :: rest)
  = p :: page_break_paragraph :: with_page_breaks (q :: rest).
Proof. reflexivity. Qed.

(** The loop of lines 116-120, started at index [k] of [n] on a document
    that already holds [doc], when every remaining page text is accepted. *)
Lemma build_doc_loop (E : Env) (n : nat) (pages : list string) :
  forallb (text_accepted E) pages = true ->
  forall (k : nat) (doc : document),
    n = k + List.length pages ->
    for_result (combine (seq k (List.length pages)) pages)
      (fun '(i, page_text) doc =>
         match add_paragraph E doc page_text with
         | Raise e => Raise e
         | Ok (doc, paragraph) =>
             let doc := set_alignment doc paragraph RIGHT in
             Ok (if (Z.of_nat i <? Z.of_nat n - 1)%Z
                 then add_page_break doc
                 else doc)
         end)
      doc
    = Ok (doc ++ with_page_breaks (map page_paragraph pages)).
Proof.
  induction pages as [|p rest IH]; intros Hacc k doc Hn.
  - simpl. now rewrite app_nil_r.
  - cbn [forallb] in Hacc. apply andb_prop in Hacc. destruct Hacc as [Hp Hrest].
    cbn [List.length seq combine for_result map].
    rewrite (add_paragraph_accepted E doc p Hp), set_alignment_last.
    cbn [runs]. fold (page_paragraph p) .
    change {| runs := runs (page_paragraph p); alignment := Some RIGHT |}
      with (page_paragraph p).
    cbn [List.length] in Hn.
    destruct rest as [|q rest].
    + destruct (Z.ltb_spec (Z.of_nat k) (Z.of_nat n - 1)) as [Hlt|_].
      * cbn [List.length] in Hn. lia.
      * reflexivity.
    + destruct (Z.ltb_spec (Z.of_nat k) (Z.of_nat n - 1)) as [_|Hge].
      * rewrite (IH Hrest) by lia.
        cbn [map]. rewrite with_page_breaks_cons2. unfold add_page_break.
        fold page_break_paragraph. now rewrite <- !app_assoc.
      * cbn [List.length] in Hn. lia.
Qed.

(** The loop raises at the first page text that is refused. *)
Lemma build_doc_loop_refused (E : Env) (n : nat) (front : list string)
      (text : string) (back : list string) (e : exn) :
  forallb (text_accepted E) front = true ->
  text <> EmptyString ->
  append_to_run_from_text E text EmptyString = Raise e ->
  forall (k : nat) (doc : document),
    for_result (combine (seq k (List.length (front ++ text :: back)))
                        (front ++ text :: back))
      (fun '(i, page_text) doc =>
         match add_paragraph E doc page_text with
         | Raise e => Raise e
         | Ok (doc, paragraph) =>
             let doc := set_alignment doc paragraph RIGHT in
             Ok (if (Z.of_nat i <? Z.of_nat n - 1)%Z
                 then add_page_break doc
                 else doc)
         end)
      doc
    = Raise e.
Proof.
  intros Hacc Hne Hbad.
  induction front as [|p rest IH]; intros k doc.
  - cbn [List.app List.length seq combine for_result].
    unfold add_paragraph. destruct text as [|a text]; [contradiction|].
    cbn [str_is_empty]. now rewrite Hbad.
  - cbn [forallb] in Hacc. apply andb_prop in Hacc. destruct Hacc as [Hp Hrest].
    cbn [List.app List.length seq combine for_result].
    rewrite (add_paragraph_accepted E doc p Hp).
    apply (IH Hrest).
Qed.

Lemma build_doc_accepted (E : Env) (full_text : list string) :
  forallb (text_accepted E) full_text = true ->
  build_doc E full_text = Ok (with_page_breaks (map page_paragraph full_text)).
Proof.
  intros Hacc. unfold build_doc, enumerate, Document.
  exact (build_doc_loop E (List.length full_text) full_text Hacc 0 [] eq_refl).
Qed.

(** The first refused page text, if there is one. *)
Lemma first_refused (E : Env) (pages : list string) :
  forallb (text_accepted E) pages = false ->
  exists front text back e,
    pages = front ++ text :: back
    /\ forallb (text_accepted E) front = true
    /\ text <> EmptyString
    /\ append_to_run_from_text E text EmptyString = Raise e.
Proof.
  induction pages as [|p rest IH]; [discriminate|].
  cbn [forallb]. destruct (text_accepted E p) eqn:Hp.
  - cbn [andb]. intros Hrest.
    destruct (IH Hrest) as (front & text & back & e & -> & Hf & Hne & Hbad).
    exists (p :: front), text, back, e. cbn [forallb]. rewrite Hp, Hf.
    now repeat split.
  - intros _. destruct (add_paragraph_refused E [] p Hp) as (e & _ & Hbad).
    exists [], p, rest, e. repeat split; try assumption.
    intros ->. unfold text_accepted in Hp. discriminate.
Qed.

(** The document is composed exactly when every page text is accepted. *)
Lemma build_doc_ok_iff (E : Env) (full_text : list string) (doc : document) :
  build_doc E full_text = Ok doc
  <-> forallb (text_accepted E) full_text = true
      /\ doc = with_page_breaks (map page_paragraph full_text).
Proof.
  split.
  - intros H. destruct (forallb (text_accepted E) full_text) eqn:Hacc.
    + rewrite (build_doc_accepted E full_text Hacc) in H.
      injection H as <-. now split.
    + destruct (first_refused E full_text Hacc)
        as (front & text & back & e & -> & Hf & Hne & Hbad).
      unfold build_doc, enumerate in H.
      rewrite (build_doc_loop_refused E _ front text back e Hf Hne Hbad) in H.
      discriminate.
  - intros [Hacc ->]. now apply build_doc_accepted.
Qed.

(** Induction over a list that sees the first two elements at once. *)
Lemma list_ind2 {A : Type} (P : list A -> Prop) :
  P [] ->
  (forall p, P [p]) ->
  (forall p q rest, P (q :: rest) -> P (p :: q :: rest)) ->
  forall l, P l.
Proof.
  intros H0 H1 H2 l.
  induction l as [|p rest IH]; [exact H0|].
  destruct rest as [|q rest]; [apply H1 | now apply H2].
Qed.

Lemma with_page_breaks_length (ps : list paragraph) :
  List.length (with_page_breaks ps) = 2 * List.length ps - 1.
Proof.
  induction ps using list_ind2; try reflexivity.
  rewrite with_page_breaks_cons2. cbn [List.length] in *. lia.
Qed.

Lemma with_page_breaks_even (ps : list paragraph) :
  forall i p,
    nth_error ps i = Some p ->
    nth_error (with_page_breaks ps) (2 * i) = Some p.
Proof.
  induction ps using list_ind2; intros i x Hi.
  - destruct i; discriminate.
  - destruct i as [|[|i]]; try discriminate. exact Hi.
  - destruct i as [|i].
    + exact Hi.
    + rewrite with_page_breaks_cons2.
      replace (2 * S i) with (S (S (2 * i))) by lia.
      cbn [nth_error]. apply IHps. exact Hi.
Qed.

Lemma with_page_breaks_odd (ps : list paragraph) :
  forall i,
    i + 1 < List.length ps ->
    nth_error (with_page_breaks ps) (2 * i + 1) = Some page_break_paragraph.
Proof.
  induction ps using list_ind2; intros i Hi.
  - simpl in Hi. lia.
  - simpl in Hi. lia.
  - rewrite with_page_breaks_cons2. destruct i as [|i].
    + reflexivity.
    + replace (2 * S i + 1) with (S (S (2 * i + 1))) by lia.
      cbn [nth_error]. apply IHps. cbn [List.length] in *. lia.
Qed.

(** A run made from text holds no page break. *)
Lemma items_of_text_no_page_break (text : string) :
  forall bfr,
    existsb (fun item => match item with r_break PAGE => true | _ => false end)
            (items_of_text text bfr) = false.
Proof.
  induction text as [|char rest IH]; intros bfr; cbn [items_of_text].
  - now destruct bfr.
  - destruct (Ascii.eqb char TAB).
    + rewrite existsb_app. cbn [existsb]. rewrite IH. now destruct bfr.
    + destruct (Ascii.eqb char LF || Ascii.eqb char CR).
      * rewrite existsb_app. cbn [existsb]. rewrite IH. now destruct bfr.
      * apply IH.
Qed.

Lemma page_paragraph_no_page_break (text : string) :
  holds_page_break (page_paragraph text) = false.
Proof.
  unfold holds_page_break, page_paragraph. cbn [runs].
  destruct (str_is_empty text); [reflexivity|].
  cbn [existsb]. now rewrite items_of_text_no_page_break.
Qed.

Lemma text_paragraphs_with_page_breaks (pages : list string) :
  text_paragraphs (with_page_breaks (map page_paragraph pages))
  = map page_paragraph pages.
Proof.
  induction pages using list_ind2.
  - reflexivity.
  - unfold text_paragraphs. cbn [map with_page_breaks filter].
    now rewrite page_paragraph_no_page_break.
  - cbn [map] in *. rewrite with_page_breaks_cons2.
    unfold text_paragraphs in *. cbn [filter].
    rewrite page_paragraph_no_page_break. cbn [negb].
    change (holds_page_break page_break_paragraph) with true. cbn [negb].
    now rewrite IHpages.
Qed.

Lemma page_breaks_with_page_breaks (pages : list string) :
  page_breaks (with_page_breaks (map page_paragraph pages))
  = repeat page_break_paragraph (List.length pages - 1).
Proof.
  induction pages using list_ind2.
  - reflexivity.
  - unfold page_breaks. cbn [map with_page_breaks filter].
    now rewrite page_paragraph_no_page_break.
  - cbn [map] in *. rewrite with_page_breaks_cons2.
    unfold page_breaks in *. cbn [filter].
    rewrite page_paragraph_no_page_break.
    change (holds_page_break page_break_paragraph) with true.
    rewrite IHpages.
    replace (List.length (p :: q :: pages) - 1)
      with (S (List.length (q :: pages) - 1)) by (cbn [List.length]; lia).
    reflexivity.
Qed.

Lemma with_page_breaks_last (ps : list paragraph) (p : paragraph) :
  exists front, with_page_breaks (ps ++ [p]) = front ++ [p].
Proof.
  induction ps using list_ind2.
  - now exists [].
  - now exists [p0; page_break_paragraph].
  - destruct IHps as [front Hfront].
    change ((p0 :: q :: ps) ++ [p]) with (p0 :: q :: (ps ++ [p])).
    rewrite with_page_breaks_cons2.
    change (q :: (ps ++ [p])) with ((q :: ps) ++ [p]). rewrite Hfront.
    now exists (p0 :: page_break_paragraph :: front).
Qed.

(** C3, as the code has it.  For N >= 1 page texts, all accepted by the
    document library, the structured document is composed and holds N
    text paragraphs, one per page text in order and each right-aligned,
    and N-1 page breaks.  Each page break is a paragraph of its own,
    without alignment, so the document has 2N-1 paragraphs in all:
    paragraph 2i is the one of page i, paragraph 2i+1 holds a page break
    for every page but the last, and the document ends with the paragraph
    of the last page. *)
Theorem C3_text_paragraphs_and_page_break_paragraphs :
  forall (E : Env) (full_text : list string),
    1 <= List.length full_text ->
    forallb (text_accepted E) full_text = true ->
    let N := List.length full_text in
    exists doc,
      build_doc E full_text = Ok doc
      /\ List.length doc = 2 * (N - 1) + 1
      /\ text_paragraphs doc = map page_paragraph full_text
      /\ List.length (text_paragraphs doc) = N
      /\ Forall right_aligned (text_paragraphs doc)
      /\ page_breaks doc = repeat page_break_paragraph (N - 1)
      /\ List.length (page_breaks doc) = N - 1
      /\ (forall i t, nth_error full_text i = Some t ->
                      nth_error doc (2 * i) = Some (page_paragraph t))
      /\ (forall i, i + 1 < N ->
                    nth_error doc (2 * i + 1) = Some page_break_paragraph)
      /\ (exists front t, doc = front ++ [page_paragraph t]
                          /\ nth_error full_text (N - 1) = Some t).
Proof.
  intros E full_text HN Hacc N. subst N.
  exists (with_page_breaks (map page_paragraph full_text)).
  split; [now apply build_doc_accepted|].
  rewrite text_paragraphs_with_page_breaks, page_breaks_with_page_breaks.
  refine (conj _ (conj eq_refl (conj _ (conj _ (conj eq_refl (conj _
           (conj _ (conj _ _)))))))).
  - rewrite with_page_breaks_length, length_map. lia.
  - apply length_map.
  - apply Forall_forall. intros p Hp. apply in_map_iff in Hp.
    now destruct Hp as (t & <- & _).
  - apply repeat_length.
  - intros i t Hi. apply with_page_breaks_even.
    now rewrite nth_error_map, Hi.
  - intros i Hi. apply with_page_breaks_odd. now rewrite length_map.
  - destruct full_text as [|t front_pages _] using rev_ind; [cbn in HN; lia|].
    rewrite map_app. cbn [map].
    destruct (with_page_breaks_last (map page_paragraph front_pages)
                (page_paragraph t)) as [front Hfront].
    exists front, t. split; [exact Hfront|].
    rewrite length_app. cbn [List.length].
    rewrite nth_error_app2 by lia.
    now replace (List.length front_pages + 1 - 1 - List.length front_pages)
      with 0 by lia.
Qed.

(** The theorem at a three-page list whose second page has two lines. *)
Lemma C3_doc_three_pages :
  forallb (text_accepted demo_env)
          ["alif"; String "b" (String LF "a"); "ta"] = true
  /\ exists doc,
       build_doc demo_env ["alif"; String "b" (String LF "a"); "ta"] = Ok doc
       /\ List.length doc = 5
       /\ List.length (page_breaks doc) = 2
       /\ nth_error doc 2
          = Some {| runs := [[r_text "b"; r_break LINE; r_text "a"]];
                    alignment := Some RIGHT |}.
Proof.
  split; [reflexivity|].
  destruct (C3_text_paragraphs_and_page_break_paragraphs demo_env
              ["alif"; String "b" (String LF "a"); "ta"]
              ltac:(cbn; lia) eq_refl)
    as (doc & Hdoc & Hlen & _ & _ & _ & _ & Hbreaks & Heven & _).
  exists doc. refine (conj Hdoc (conj Hlen (conj Hbreaks _))).
  exact (Heven 1 _ eq_refl).
Defined.

(** C3 as the specification words it fails: two page texts give a
    document of three paragraphs, the middle one -- the page break --
    without alignment; and a page text that holds a NUL byte gives no
    document at all, because [add_paragraph] raises. *)
Lemma C3_two_pages_make_three_paragraphs :
  1 <= List.length ["alif"; "ba"]
  /\ build_doc demo_env ["alif"; "ba"]
     = Ok [ {| runs := [[r_text "alif"]]; alignment := Some RIGHT |};
            {| runs := [[r_break PAGE]]; alignment := None |};
            {| runs := [[r_text "ba"]]; alignment := Some RIGHT |} ]
  /\ (forall doc,
        build_doc demo_env ["alif"; "ba"] = Ok doc ->
        List.length doc <> List.length ["alif"; "ba"]
        /\ ~ Forall right_aligned doc)
  /\ (forall doc,
        build_doc demo_env ["alif"; String (ascii_of_nat 0) EmptyString]
        <> Ok doc).
Proof.
  split; [cbn; lia|]. split; [reflexivity|]. split.
  - intros doc H. injection H as <-. split; [discriminate|].
    intros Hall. inversion Hall as [|p1 l1 _ Hrest]; subst.
    inversion Hrest as [|p2 l2 Hbreak _]; subst. discriminate Hbreak.
  - intros doc H. discriminate H.
Qed.

(** ** Evaluating the steps *)

Section Evaluation.

Variable E : Env.

Lemma render_loop (d : pdf_document E) (page_nums : list nat) :
  forall (image_list : list bytes) (t : trace),
    for_ page_nums
      (fun page_num image_list =>
         page <- lift (load_page E d page_num) ;;
         pix <- lift (get_pixmap E page 300) ;;
         img <- lift (Image_frombytes E "RGB" (width pix, height pix)
                                      (samples pix)) ;;
         img_byte_arr <- lift (Image_save E img "PNG") ;;
         ret (image_list ++ [img_byte_arr]))
      image_list t
    = (match render_pages E d page_nums with
       | Ok pngs => Ok (image_list ++ pngs)
       | Raise e => Raise e
       end, t).
Proof.
  induction page_nums as [|i rest IH]; intros image_list t.
  - simpl. unfold ret. now rewrite app_nil_r.
  - cbn [for_ render_pages]. unfold bind at 1. step_monad.
    unfold render_page.
    destruct (load_page E d i) as [pg|e]; [|reflexivity].
    destruct (get_pixmap E pg 300) as [pix|e]; [|reflexivity].
    destruct (Image_frombytes E "RGB" (width pix, height pix) (samples pix))
      as [img|e]; [|reflexivity].
    destruct (Image_save E img "PNG") as [png|e]; [|reflexivity].
    rewrite IH.
    destruct (render_pages E d rest) as [pngs|e]; [|reflexivity].
    now rewrite <- app_assoc.
Qed.

Lemma convert_pdf_to_images_eval (pdf_bytes : bytes) (t : trace) :
  convert_pdf_to_images E pdf_bytes t
  = match rasterize E pdf_bytes with
    | Ok image_list =>
        (Ok image_list, t ++ [fitz_open_call pdf_bytes "pdf"; fitz_close_call])
    | Raise e => (Raise e, t ++ [fitz_open_call pdf_bytes "pdf"])
    end.
Proof.
  unfold convert_pdf_to_images, rasterize.
  unfold bind at 1. unfold emit at 1.
  unfold bind at 1. unfold lift at 1.
  destruct (fitz_open E pdf_bytes "pdf") as [d|e]; [|reflexivity].
  unfold bind at 1. rewrite render_loop.
  destruct (render_pages E d (range (len_pdf E d))) as [pngs|e]; [|reflexivity].
  step_monad. cbn [List.app]. now rewrite <- app_assoc.
Qed.

Lemma detect_text_in_image_eval (image_bytes : bytes) (c : client E) (t : trace) :
  detect_text_in_image E image_bytes c t
  = (recognise E c image_bytes, t ++ [text_detection_call image_bytes arabic]).
Proof.
  unfold detect_text_in_image, recognise, page_text, arabic. step_monad.
  destruct (text_detection E c image_bytes _) as [r|e]; [|reflexivity].
  destruct (text_annotations r) as [|first rest]; reflexivity.
Qed.

Lemma true_div_fraction (i n : nat) :
  n <> 0 ->
  true_div (Z.of_nat i + 1) (Z.of_nat n) = Ok (fraction (i + 1) n).
Proof.
  intros Hn. unfold true_div, fraction.
  destruct (Z.eqb_spec (Z.of_nat n) 0) as [H0|_]; [lia|].
  now rewrite Nat2Z.inj_add.
Qed.

Lemma recognition_loop (c : client E) (n : nat) (items : list (nat * bytes)) :
  n <> 0 ->
  forall (full_text : list string) (t : trace),
    for_ items
      (fun '(i, image_bytes) full_text =>
         text_from_page <- detect_text_in_image E image_bytes c ;;
         let full_text := full_text ++ [text_from_page] in
         value <- lift (true_div (Z.of_nat i + 1) (Z.of_nat n)) ;;
         emit (progress_bar_progress value) ;;;
         ret full_text)
      full_text t
    = (match recognise_all E c (map snd items) with
       | Ok texts => Ok (full_text ++ texts)
       | Raise e => Raise e
       end, t ++ ocr_events E c n items).
Proof.
  intros Hn.
  induction items as [|[i img] rest IH]; intros full_text t.
  - simpl. unfold ret. now rewrite !app_nil_r.
  - cbn [for_ map snd recognise_all ocr_events].
    unfold bind at 1. unfold bind at 1.
    rewrite detect_text_in_image_eval.
    destruct (recognise E c img) as [text|e]; [|reflexivity].
    unfold bind at 1. rewrite (true_div_fraction i n Hn). unfold lift at 1.
    unfold bind at 1. unfold emit at 1. unfold ret at 1.
    rewrite IH.
    destruct (recognise_all E c (map snd rest)) as [texts|e].
    + f_equal; [now rewrite <- app_assoc|].
      now rewrite <- !app_assoc.
    + f_equal. now rewrite <- !app_assoc.
Qed.

Lemma enumerate_snd {A : Type} (xs : list A) : map snd (enumerate xs) = xs.
Proof.
  unfold enumerate. generalize 0.
  induction xs as [|x xs IH]; intros k; simpl; [reflexivity | now rewrite IH].
Qed.

Lemma ocr_loop_eval (image_list : list bytes) (c : client E) (t : trace) :
  ocr_loop E image_list c t
  = (recognise_all E c image_list,
     t ++ st_progress 0
       :: ocr_events E c (List.length image_list) (enumerate image_list)).
Proof.
  unfold ocr_loop. unfold bind at 1. unfold emit at 1.
  destruct image_list as [|img rest] eqn:Himgs.
  - reflexivity.
  - rewrite <- Himgs.
    rewrite (recognition_loop c (List.length image_list) (enumerate image_list)).
    + rewrite enumerate_snd.
      destruct (recognise_all E c image_list); cbn [List.app];
        now rewrite <- app_assoc.
    + subst image_list. discriminate.
Qed.

End Evaluation.

(** ** Evaluating a run *)

Section Run.

Variable E : Env.

Lemma process_pdf_eval (uploaded_file : UploadedFile) (c : client E) (t : trace) :
  process_pdf E uploaded_file c t
  = match rasterize E (getvalue uploaded_file) with
    | Raise e =>
        (Raise e,
         t ++ st_spinner_enter spinner_text
           :: rasterization_events (getvalue uploaded_file) false
           ++ [st_spinner_exit])
    | Ok image_list =>
        match recognise_all E c image_list with
        | Raise e =>
            (Raise e,
             t ++ st_spinner_enter spinner_text
               :: rasterization_events (getvalue uploaded_file) true
               ++ recognition_events E c image_list
               ++ [st_spinner_exit])
        | Ok full_text =>
            (match build_doc E full_text with
             | Raise e => Raise e
             | Ok doc => Ok (locals_of E uploaded_file image_list full_text doc)
             end,
             t ++ st_spinner_enter spinner_text
               :: rasterization_events (getvalue uploaded_file) true
               ++ recognition_events E c image_list
               ++ [st_info "Step 3/3: Preparing your files for download...";
                   st_spinner_exit])
        end
    end.
Proof.
  unfold process_pdf, with_spinner.
  unfold bind at 1. unfold emit at 1.
  unfold bind at 1. rewrite convert_pdf_to_images_eval.
  destruct (rasterize E (getvalue uploaded_file)) as [image_list|e].
  - unfold bind at 1. unfold emit at 1.
    unfold bind at 1. rewrite ocr_loop_eval.
    destruct (recognise_all E c image_list) as [full_text|e].
    + unfold bind at 1. unfold emit at 1.
      unfold bind, lift, ret.
      destruct (build_doc E full_text) as [doc|e]; f_equal;
        unfold rasterization_events, recognition_events;
        repeat (rewrite <- app_assoc; cbn [List.app]); reflexivity.
    + f_equal. unfold rasterization_events, recognition_events.
      repeat (rewrite <- app_assoc; cbn [List.app]). reflexivity.
  - f_equal. unfold rasterization_events.
    repeat (rewrite <- app_assoc; cbn [List.app]). reflexivity.
Qed.

Lemma try_body_eval (api_key_json_str : string) (uploaded_file : UploadedFile)
      (t : trace) :
  try_body E api_key_json_str uploaded_file t
  = match make_client E api_key_json_str with
    | Raise e => (Raise e, t)
    | Ok c =>
        match process_pdf E uploaded_file c t with
        | (Raise e, t') => (Raise e, t')
        | (Ok v, t') =>
            (Ok v,
             t' ++ [st_success "✅ Success! Your files are ready for download.";
                    st_columns 2;
                    st_download_button "📥 Download as TXT"
                      (txt_data (v_txt_output v))
                      (v_base_filename v ++ "_OCR.txt")%string "text/plain";
                    st_download_button "📥 Download as DOCX"
                      (docx_data (v_doc v))
                      (v_base_filename v ++ "_OCR.docx")%string docx_mime])
        end
    end.
Proof.
  unfold try_body. unfold bind at 1. unfold lift at 1.
  destruct (make_client E api_key_json_str) as [c|e]; [|reflexivity].
  unfold bind at 1.
  destruct (process_pdf E uploaded_file c t) as [[v|e] t']; [|reflexivity].
  unfold bind, emit, ret.
  repeat (rewrite <- app_assoc; cbn [List.app]). reflexivity.
Qed.

(** A run in which every step answers. *)
Lemma try_body_success (api_key_json_str : string) (uploaded_file : UploadedFile)
      (c : client E) (image_list : list bytes) (full_text : list string)
      (doc : document) :
  make_client E api_key_json_str = Ok c ->
  rasterize E (getvalue uploaded_file) = Ok image_list ->
  recognise_all E c image_list = Ok full_text ->
  build_doc E full_text = Ok doc ->
  try_body E api_key_json_str uploaded_file []
  = (Ok (locals_of E uploaded_file image_list full_text doc),
     st_spinner_enter spinner_text
       :: rasterization_events (getvalue uploaded_file) true
       ++ recognition_events E c image_list
       ++ composition_events
            (locals_of E uploaded_file image_list full_text doc)).
Proof.
  intros Hc Hr Ho Hd.
  rewrite try_body_eval, Hc, process_pdf_eval, Hr, Ho, Hd.
  f_equal. unfold composition_events.
  cbn [List.app]. rewrite <- !app_assoc. reflexivity.
Qed.

(** A run in which the document library refuses a page text. *)
Lemma try_body_composition_failure (api_key_json_str : string)
      (uploaded_file : UploadedFile) (c : client E) (image_list : list bytes)
      (full_text : list string) (e : exn) :
  make_client E api_key_json_str = Ok c ->
  rasterize E (getvalue uploaded_file) = Ok image_list ->
  recognise_all E c image_list = Ok full_text ->
  build_doc E full_text = Raise e ->
  try_body E api_key_json_str uploaded_file []
  = (Raise e,
     st_spinner_enter spinner_text
       :: rasterization_events (getvalue uploaded_file) true
       ++ recognition_events E c image_list
       ++ [st_info "Step 3/3: Preparing your files for download...";
           st_spinner_exit]).
Proof.
  intros Hc Hr Ho Hd.
  now rewrite try_body_eval, Hc, process_pdf_eval, Hr, Ho, Hd.
Qed.

End Run.

(** ** Index alignment of the intermediate lists *)

Section Alignment.

Variable E : Env.


Lemma recognise_all_nth (c : client E) (image_list : list bytes) :
  forall full_text,
    recognise_all E c image_list = Ok full_text ->
    List.length full_text = List.length image_list
    /\ forall j img, nth_error image_list j = Some img ->
                     exists r, text_detection E c img arabic = Ok r
                               /\ nth_error full_text j = Some (page_text r).
Proof.
  induction image_list as [|img0 rest IH]; intros full_text H.
  - injection H as <-. split; [reflexivity|].
    intros [|j] img Hj; discriminate.
  - cbn [recognise_all] in H. unfold recognise in H.
    destruct (text_detection E c img0 arabic) as [r0|e] eqn:Hr; [|discriminate].
    destruct (recognise_all E c rest) as [texts|e]; [|discriminate].
    injection H as <-.
    destruct (IH texts eq_refl) as [Hlen Hnth].
    split; [cbn [List.length]; now rewrite Hlen|].
    intros [|j] img Hj.
    + injection Hj as <-. exists r0. now split.
    + apply Hnth. exact Hj.
Qed.


End Alignment.

Lemma downloads_app (t1 t2 : trace) :
  downloads (t1 ++ t2) = downloads t1 ++ downloads t2.
Proof. unfold downloads. apply flat_map_app. Qed.

Lemma ocr_events_no_download (E : Env) (c : client E) (n : nat)
      (items : list (nat * bytes)) :
  downloads (ocr_events E c n items) = [].
Proof.
  induction items as [|[i img] rest IH]; [reflexivity|].
  cbn [ocr_events]. destruct (recognise E c img); [|reflexivity].
  exact IH.
Qed.

Lemma success_trace_downloads (E : Env) (c : client E) (pdf_bytes : bytes)
      (image_list : list bytes) (v : locals) :
  downloads (st_spinner_enter spinner_text
               :: rasterization_events pdf_bytes true
               ++ recognition_events E c image_list
               ++ composition_events v)
  = [txt_data (v_txt_output v); docx_data (v_doc v)].
Proof.
  change (st_spinner_enter spinner_text :: ?l) with ([st_spinner_enter spinner_text] ++ l).
  rewrite !downloads_app. unfold recognition_events.
  change (downloads (st_info ?a :: st_progress ?b :: ?l)) with (downloads l).
  rewrite ocr_events_no_download. reflexivity.
Qed.




(** ** Evaluating the script *)

Lemma app_eval (E : Env) (api_key_json_str : string)
      (uploaded_file : UploadedFile) :
  app E api_key_json_str (Some uploaded_file) true []
  = if str_is_empty api_key_json_str
    then (Ok tt, [st_error missing_key_message])
    else match try_body E api_key_json_str uploaded_file [] with
         | (Ok _, t) => (Ok tt, t)
         | (Raise e, t) => (Ok tt, t ++ error_report e)
         end.
Proof.
  unfold app. destruct (str_is_empty api_key_json_str); [reflexivity|].
  unfold try_except, bind.
  destruct (try_body E api_key_json_str uploaded_file []) as [[v|e] t].
  - reflexivity.
  - unfold except_handler, error_report, bind, emit.
    now rewrite <- app_assoc.
Qed.

(** The script itself never raises: what the body of [try] raises is
    caught. *)
Lemma app_never_raises (E : Env) (api_key_json_str : string)
      (uploaded_file : option UploadedFile) (start_clicked : bool) :
  fst (app E api_key_json_str uploaded_file start_clicked []) = Ok tt.
Proof.
  destruct uploaded_file as [file|]; [|reflexivity].
  destruct start_clicked; [|reflexivity].
  rewrite app_eval. destruct (str_is_empty api_key_json_str); [reflexivity|].
  now destruct (try_body E api_key_json_str file []) as [[v|e] t].
Qed.

(** Nothing happens before a file is chosen and the button is pressed. *)
Lemma app_idle (E : Env) (api_key_json_str : string)
      (uploaded_file : option UploadedFile) (t : trace) :
  app E api_key_json_str None true t = (Ok tt, t)
  /\ app E api_key_json_str uploaded_file false t = (Ok tt, t).
Proof. split; [reflexivity | destruct uploaded_file; reflexivity]. Qed.

Lemma app_with_key (E : Env) (api_key_json_str : string)
      (uploaded_file : UploadedFile) :
  str_is_empty api_key_json_str = false ->
  app E api_key_json_str (Some uploaded_file) true []
  = match try_body E api_key_json_str uploaded_file [] with
    | (Ok _, t) => (Ok tt, t)
    | (Raise e, t) => (Ok tt, t ++ error_report e)
    end.
Proof. intros H. now rewrite app_eval, H. Qed.

(** ** Progress *)

Lemma fraction_exact (k n : nat) :
  (fraction k n == inject_Z (Z.of_nat k) / inject_Z (Z.of_nat n))%Q.
Proof. unfold fraction. apply Qred_correct. Qed.

Lemma fraction_full (n : nat) : n <> 0 -> fraction n n = 1%Q.
Proof.
  intros Hn. unfold fraction.
  change 1%Q with (Qred 1). apply Qred_complete.
  apply Qmult_inv_r. unfold inject_Z, Qeq. simpl. lia.
Qed.

Lemma fraction_in_unit_interval (k n : nat) :
  k <= n -> n <> 0 -> (0 <= fraction k n /\ fraction k n <= 1)%Q.
Proof.
  intros Hk Hn. rewrite fraction_exact. unfold Qdiv, Qinv, inject_Z.
  destruct (Z.of_nat n) as [|p|p] eqn:Hp; try lia.
  cbn [Qnum Qden]. unfold Qle, Qmult. cbn [Qnum Qden]. split; nia.
Qed.

Section Progress.

Variable E : Env.

(** When every page is answered, the loop alternates a request and a
    progress update. *)
Lemma ocr_events_success (c : client E) (n : nat) (items : list (nat * bytes)) :
  forall texts,
    recognise_all E c (map snd items) = Ok texts ->
    ocr_events E c n items
    = flat_map (fun '(i, img) =>
                  [text_detection_call img arabic;
                   progress_bar_progress (fraction (i + 1) n)])
               items.
Proof.
  induction items as [|[i img] rest IH]; intros texts H; [reflexivity|].
  cbn [map snd recognise_all] in H. cbn [ocr_events flat_map].
  destruct (recognise E c img) as [text|e]; [|discriminate].
  destruct (recognise_all E c (map snd rest)) as [texts'|e]; [|discriminate].
  cbn [List.app]. now rewrite (IH texts').
Qed.

Lemma progress_reports_app (t1 t2 : trace) :
  progress_reports (t1 ++ t2) = progress_reports t1 ++ progress_reports t2.
Proof. unfold progress_reports. apply flat_map_app. Qed.

Lemma progress_reports_alternating (n : nat) (images : list bytes) :
  forall k,
    progress_reports
      (flat_map (fun '(i, img) =>
                   [text_detection_call img arabic;
                    progress_bar_progress (fraction (i + 1) n)])
                (combine (seq k (List.length images)) images))
    = map (fun j => fraction j n) (seq (k + 1) (List.length images)).
Proof.
  induction images as [|img rest IH]; intros k; [reflexivity|].
  cbn [List.length seq combine flat_map map].
  rewrite progress_reports_app. cbn [progress_reports flat_map List.app].
  f_equal. fold (progress_reports
    (flat_map (fun '(i, img0) =>
                 [text_detection_call img0 arabic;
                  progress_bar_progress (fraction (i + 1) n)])
              (combine (seq (S k) (List.length rest)) rest))).
  rewrite (IH (S k)). now replace (S k + 1) with (S (k + 1)) by lia.
Qed.

End Progress.

(** The page count is printed in decimal. *)
Lemma nat_of_str_str_nat (n : nat) : nat_of_str (str_nat n) = Some n.
Proof.
  unfold nat_of_str, str_nat. rewrite NilEmpty.usu. cbn [option_map].
  now rewrite Unsigned.of_to.
Qed.

(** C8.  A run in which the client is built, the PDF is rasterized and
    every page is answered performs rasterization, then recognition, then
    composition, in that order and each once: its trace is the status
    line of step 1 and the rasterizer call; the status line of step 2,
    which states the page count N in decimal, and then, for the k-th
    page, the request for that page followed by a progress update of k/N;
    then the status line of step 3 and, according to whether the document
    is composed, the success message with the two download buttons or the
    error report.  The progress values are 1/N, 2/N, ..., N/N in this
    order, and the last one is exactly 1.  (Python's float quotient is
    modelled by the exact rational in lowest terms.) *)
Theorem C8_steps_in_order_with_progress :
  forall (E : Env) (api_key_json_str : string) (uploaded_file : UploadedFile)
         (c : client E) (image_list : list bytes) (full_text : list string),
    str_is_empty api_key_json_str = false ->
    make_client E api_key_json_str = Ok c ->
    rasterize E (getvalue uploaded_file) = Ok image_list ->
    recognise_all E c image_list = Ok full_text ->
    let N := List.length image_list in
    let base_filename := fst (splitext E (name uploaded_file)) in
    let t := snd (app E api_key_json_str (Some uploaded_file) true []) in
    t = [st_spinner_enter spinner_text;
         st_info "Step 1/3: Converting PDF pages to images...";
         fitz_open_call (getvalue uploaded_file) "pdf";
         fitz_close_call;
         st_info ("Step 2/3: Sending " ++ str_nat N
                  ++ " pages to Google for OCR...")%string;
         st_progress 0]
        ++ flat_map (fun '(i, img) =>
                       [text_detection_call img arabic;
                        progress_bar_progress (fraction (i + 1) N)])
                    (enumerate image_list)
        ++ [st_info "Step 3/3: Preparing your files for download...";
            st_spinner_exit]
        ++ match build_doc E full_text with
           | Ok doc =>
               [st_success "✅ Success! Your files are ready for download.";
                st_columns 2;
                st_download_button "📥 Download as TXT"
                  (txt_data (txt_output full_text))
                  (base_filename ++ "_OCR.txt")%string "text/plain";
                st_download_button "📥 Download as DOCX" (docx_data doc)
                  (base_filename ++ "_OCR.docx")%string docx_mime]
           | Raise e =>
               [st_error ("An error occurred: " ++ str_exn e)%string;
                st_error remediation_hint]
           end
    /\ nat_of_str (str_nat N) = Some N
    /\ progress_reports t = map (fun k => fraction k N) (seq 1 N)
    /\ (forall k, (fraction k N
                   == inject_Z (Z.of_nat k) / inject_Z (Z.of_nat N))%Q)
    /\ (forall k, 1 <= k <= N ->
                  nth_error (progress_reports t) (k - 1) = Some (fraction k N))
    /\ (1 <= N -> nth_error (progress_reports t) (N - 1) = Some 1%Q)
    /\ List.length (progress_reports t) = N.
Proof.
  intros E key file c image_list full_text Hkey Hc Hr Ho N base_filename t.
  set (tail := match build_doc E full_text with
               | Ok doc =>
                   [st_success "✅ Success! Your files are ready for download.";
                    st_columns 2;
                    st_download_button "📥 Download as TXT"
                      (txt_data (txt_output full_text))
                      (base_filename ++ "_OCR.txt")%string "text/plain";
                    st_download_button "📥 Download as DOCX" (docx_data doc)
                      (base_filename ++ "_OCR.docx")%string docx_mime]
               | Raise e =>
                   [st_error ("An error occurred: " ++ str_exn e)%string;
                    st_error remediation_hint]
               end).
  assert (Htail : progress_reports tail = []).
  { subst tail. now destruct (build_doc E full_text). }
  assert (Ht : t = [st_spinner_enter spinner_text;
         st_info "Step 1/3: Converting PDF pages to images...";
         fitz_open_call (getvalue file) "pdf";
         fitz_close_call;
         st_info ("Step 2/3: Sending " ++ str_nat N
                  ++ " pages to Google for OCR...")%string;
         st_progress 0]
        ++ flat_map (fun '(i, img) =>
                       [text_detection_call img arabic;
                        progress_bar_progress (fraction (i + 1) N)])
                    (enumerate image_list)
        ++ [st_info "Step 3/3: Preparing your files for download...";
            st_spinner_exit]
        ++ tail).
  { subst t tail. rewrite (app_with_key E key file Hkey).
    rewrite try_body_eval, Hc, process_pdf_eval, Hr, Ho.
    unfold rasterization_events, recognition_events.
    rewrite (ocr_events_success E c (List.length image_list)
               (enumerate image_list) full_text)
      by now rewrite enumerate_snd.
    destruct (build_doc E full_text) as [doc|e]; cbn [snd List.app];
      rewrite <- ?app_assoc; reflexivity. }
  assert (Hreports : progress_reports t = map (fun k => fraction k N) (seq 1 N)).
  { rewrite Ht, !progress_reports_app, Htail. unfold enumerate.
    rewrite (progress_reports_alternating N image_list 0).
    cbn [progress_reports flat_map List.app].
    now rewrite !app_nil_r. }
  assert (Hnth : forall k, 1 <= k <= N ->
             nth_error (progress_reports t) (k - 1) = Some (fraction k N)).
  { intros k Hk. rewrite Hreports.
    rewrite nth_error_map, nth_error_nth' with (d := 0)
      by (rewrite length_seq; lia).
    rewrite seq_nth by lia. cbn [option_map]. do 2 f_equal. lia. }
  refine (conj Ht (conj _ (conj Hreports (conj _ (conj Hnth (conj _ _)))))).
  - apply nat_of_str_str_nat.
  - intros k. apply fraction_exact.
  - intros HN. rewrite (Hnth N) by lia. f_equal. apply fraction_full. lia.
  - now rewrite Hreports, length_map, length_seq.
Qed.

(** The theorem on the four-page demo upload: the page count is spelled
    out in the status line of step 2, which comes after the rasterizer
    call and before the first request. *)
Lemma C8_demo_progress :
  str_is_empty demo_key = false
  /\ rasterize demo_env (getvalue demo_file) = Ok ["a"; "b"; " "; "c"]
  /\ firstn 7 (snd (app demo_env demo_key (Some demo_file) true []))
     = [st_spinner_enter spinner_text;
        st_info "Step 1/3: Converting PDF pages to images...";
        fitz_open_call "%PDFab c" "pdf";
        fitz_close_call;
        st_info "Step 2/3: Sending 4 pages to Google for OCR...";
        st_progress 0;
        text_detection_call "a" arabic]
  /\ progress_reports (snd (app demo_env demo_key (Some demo_file) true []))
     = [(1 # 4)%Q; (1 # 2)%Q; (3 # 4)%Q; 1%Q].
Proof.
  refine (conj eq_refl (conj eq_refl _)).
  destruct (C8_steps_in_order_with_progress demo_env demo_key demo_file tt
              ["a"; "b"; " "; "c"] ["a"; "b"; EmptyString; "c"]
              eq_refl eq_refl eq_refl eq_refl)
    as (Htrace & _ & Hreports & _).
  split; [now rewrite Htrace | exact Hreports].
Defined.

(** C9.  A PDF that opens as a document of zero pages is processed
    without error: the recognition loop body never runs (no request to
    the service, no progress update, hence no division by the page count,
    which would raise), the plain-text output is exactly the
    right-to-left marker, the structured document is composed and empty
    (no paragraph, no page break), and both files are offered for
    download. *)
Theorem C9_zero_pages_completes :
  forall (E : Env) (api_key_json_str : string) (uploaded_file : UploadedFile)
         (c : client E) (d : pdf_document E),
    str_is_empty api_key_json_str = false ->
    make_client E api_key_json_str = Ok c ->
    fitz_open E (getvalue uploaded_file) "pdf" = Ok d ->
    len_pdf E d = 0 ->
    let base_filename := fst (splitext E (name uploaded_file)) in
    let run := app E api_key_json_str (Some uploaded_file) true [] in
    run = (Ok tt,
           [st_spinner_enter spinner_text;
            st_info "Step 1/3: Converting PDF pages to images...";
            fitz_open_call (getvalue uploaded_file) "pdf";
            fitz_close_call;
            st_info "Step 2/3: Sending 0 pages to Google for OCR...";
            st_progress 0;
            st_info "Step 3/3: Preparing your files for download...";
            st_spinner_exit;
            st_success "✅ Success! Your files are ready for download.";
            st_columns 2;
            st_download_button "📥 Download as TXT" (txt_data RLE)
              (base_filename ++ "_OCR.txt")%string "text/plain";
            st_download_button "📥 Download as DOCX" (docx_data [])
              (base_filename ++ "_OCR.docx")%string docx_mime])
    /\ filter is_error (snd run) = []
    /\ filter is_ocr_call (snd run) = []
    /\ progress_reports (snd run) = []
    /\ true_div (Z.of_nat 0 + 1) (Z.of_nat 0)
       = Raise (Exception "division by zero")
    /\ txt_output [] = RLE
    /\ build_doc E [] = Ok []
    /\ text_paragraphs [] = []
    /\ page_breaks [] = []
    /\ downloads (snd run) = [txt_data (txt_output []); docx_data []].
Proof.
  intros E key file c d Hkey Hc Hopen Hlen base_filename run.
  assert (Hr : rasterize E (getvalue file) = Ok []).
  { unfold rasterize. now rewrite Hopen, Hlen. }
  assert (Hrun : run = (Ok tt,
           [st_spinner_enter spinner_text;
            st_info "Step 1/3: Converting PDF pages to images...";
            fitz_open_call (getvalue file) "pdf";
            fitz_close_call;
            st_info "Step 2/3: Sending 0 pages to Google for OCR...";
            st_progress 0;
            st_info "Step 3/3: Preparing your files for download...";
            st_spinner_exit;
            st_success "✅ Success! Your files are ready for download.";
            st_columns 2;
            st_download_button "📥 Download as TXT" (txt_data RLE)
              (base_filename ++ "_OCR.txt")%string "text/plain";
            st_download_button "📥 Download as DOCX" (docx_data [])
              (base_filename ++ "_OCR.docx")%string docx_mime])).
  { subst run. rewrite (app_with_key E key file Hkey).
    now rewrite (try_body_success E key file c [] [] [] Hc Hr eq_refl eq_refl). }
  rewrite Hrun. cbn [snd].
  refine (conj eq_refl (conj eq_refl (conj eq_refl (conj eq_refl
           (conj eq_refl (conj eq_refl (conj eq_refl (conj eq_refl
           (conj eq_refl eq_refl))))))))).
Qed.

(** The theorem on the demo upload without pages. *)
Lemma C9_demo_empty_upload :
  str_is_empty demo_key = false
  /\ len_pdf demo_env (list_ascii_of_string EmptyString) = 0
  /\ downloads (snd (app demo_env demo_key (Some demo_file_empty) true []))
     = [txt_data RLE; docx_data []].
Proof.
  refine (conj eq_refl (conj eq_refl _)).
  exact (proj2 (proj2 (proj2 (proj2 (proj2 (proj2 (proj2 (proj2 (proj2
           (C9_zero_pages_completes demo_env demo_key demo_file_empty tt
              (list_ascii_of_string EmptyString)
              eq_refl eq_refl eq_refl eq_refl)))))))))).
Defined.

(** C4.  A page image whose response holds no text annotation makes
    [detect_text_in_image] return the empty string, not an error.  When
    every page is answered, the recognition loop ends with as many page
    texts as there are page images and the empty string at that page's
    index; the plain-text output joins all of them, the blank page
    included.  When the document library accepts the page texts -- it
    always accepts the blank one -- the run succeeds, and the page keeps
    its paragraph, empty and right-aligned, at its place in the
    structured document. *)
Theorem C4_blank_page_keeps_its_index :
  forall (E : Env) (api_key_json_str : string) (uploaded_file : UploadedFile)
         (c : client E) (image_list : list bytes) (full_text : list string)
         (i : nat) (img : bytes) (r : response) (t0 : trace),
    make_client E api_key_json_str = Ok c ->
    rasterize E (getvalue uploaded_file) = Ok image_list ->
    recognise_all E c image_list = Ok full_text ->
    nth_error image_list i = Some img ->
    text_detection E c img {| language_hints := ["ar"] |} = Ok r ->
    text_annotations r = [] ->
    detect_text_in_image E img c t0
    = (Ok EmptyString,
       t0 ++ [text_detection_call img {| language_hints := ["ar"] |}])
    /\ fst (ocr_loop E image_list c t0) = Ok full_text
    /\ nth_error full_text i = Some EmptyString
    /\ List.length full_text = List.length image_list
    /\ String.length (txt_output full_text)
       = 3 + total_length full_text + 22 * (List.length image_list - 1)
    /\ text_accepted E EmptyString = true
    /\ (forallb (text_accepted E) full_text = true ->
        exists v t,
          try_body E api_key_json_str uploaded_file [] = (Ok v, t)
          /\ v_full_text v = full_text
          /\ List.length (text_paragraphs (v_doc v)) = List.length image_list
          /\ nth_error (v_doc v) (2 * i)
             = Some {| runs := []; alignment := Some RIGHT |}).
Proof.
  intros E key file c image_list full_text i img r t0 Hc Hr Ho Hi Hresp Hnone.
  destruct (recognise_all_nth E c image_list full_text Ho) as [Hlen Hnth].
  destruct (Hnth i img Hi) as (r' & Hr' & Htext).
  unfold arabic in Hr'. rewrite Hresp in Hr'. injection Hr' as <-.
  unfold page_text in Htext. rewrite Hnone in Htext.
  refine (conj _ (conj _ (conj Htext (conj Hlen (conj _ (conj eq_refl _)))))).
  - rewrite detect_text_in_image_eval. unfold recognise, arabic.
    rewrite Hresp. unfold page_text. now rewrite Hnone.
  - now rewrite ocr_loop_eval.
  - rewrite <- Hlen. apply txt_output_length.
  - intros Hacc. pose proof (build_doc_accepted E full_text Hacc) as Hdoc.
    eexists. eexists.
    split; [exact (try_body_success E key file c image_list full_text _
                     Hc Hr Ho Hdoc)|].
    cbn [locals_of v_full_text v_doc].
    refine (conj eq_refl (conj _ _)).
    + now rewrite text_paragraphs_with_page_breaks, length_map.
    + apply (with_page_breaks_even _ i (page_paragraph EmptyString)).
      now rewrite nth_error_map, Htext.
Qed.

(** The theorem on the blank third page of the demo upload. *)
Lemma C4_demo_blank_page :
  nth_error ["a"; "b"; " "; "c"] 2 = Some " "
  /\ text_detection demo_env tt " " {| language_hints := ["ar"] |}
     = Ok {| text_annotations := [] |}
  /\ detect_text_in_image demo_env " " tt []
     = (Ok EmptyString,
        [text_detection_call " " {| language_hints := ["ar"] |}])
  /\ nth_error ["a"; "b"; EmptyString; "c"] 2 = Some EmptyString
  /\ exists v t,
       try_body demo_env demo_key demo_file [] = (Ok v, t)
       /\ v_full_text v = ["a"; "b"; EmptyString; "c"]
       /\ nth_error (v_doc v) 4 = Some {| runs := []; alignment := Some RIGHT |}.
Proof.
  refine (conj eq_refl (conj eq_refl _)).
  destruct (C4_blank_page_keeps_its_index demo_env demo_key demo_file tt
              ["a"; "b"; " "; "c"] ["a"; "b"; EmptyString; "c"] 2 " "
              {| text_annotations := [] |} []
              eq_refl eq_refl eq_refl eq_refl eq_refl eq_refl)
    as (Hdetect & _ & Hnth & _ & _ & _ & Hrun).
  refine (conj Hdetect (conj Hnth _)).
  destruct (Hrun eq_refl) as (v & t & Hv & Htexts & _ & Hpar).
  exists v, t. repeat split; assumption.
Defined.

(** ** Runs that fail *)

(** C5.  With an empty credential string the script reports the missing
    key at once; with a credential string that [json.loads] rejects it
    reports the parse error and the remediation hint.  In both cases the
    report is all that happens: the rasterizer is not called, the remote
    service is not called, nothing is offered for download. *)
Theorem C5_bad_credentials_stop_before_any_call :
  forall (E : Env) (api_key_json_str : string) (uploaded_file : UploadedFile),
    (api_key_json_str = EmptyString
     \/ exists e, json_loads E api_key_json_str = Raise e) ->
    let t := snd (app E api_key_json_str (Some uploaded_file) true []) in
    ((api_key_json_str = EmptyString /\ t = [st_error missing_key_message])
     \/ (exists e, json_loads E api_key_json_str = Raise e
                   /\ t = [st_error ("An error occurred: " ++ str_exn e)%string;
                           st_error remediation_hint]))
    /\ (exists body rest, t = st_error body :: rest)
    /\ filter is_rasterizer_call t = []
    /\ filter is_ocr_call t = []
    /\ external_calls t = []
    /\ downloads t = [].
Proof.
  intros E key file Hbad t.
  assert (Hcases :
    (key = EmptyString /\ t = [st_error missing_key_message])
    \/ (exists e, json_loads E key = Raise e /\ t = error_report e)).
  { subst t. rewrite app_eval.
    destruct key as [|a key'].
    - left. now split.
    - destruct Hbad as [Hempty | [e He]]; [discriminate|].
      right. exists e. split; [exact He|].
      cbn [str_is_empty]. rewrite try_body_eval.
      unfold make_client. now rewrite He. }
  destruct Hcases as [[Hkey Ht] | (e & He & Ht)]; rewrite Ht.
  - refine (conj (or_introl (conj Hkey eq_refl)) _).
    refine (conj _ (conj eq_refl (conj eq_refl (conj eq_refl eq_refl)))).
    now exists missing_key_message, [].
  - refine (conj (or_intror (ex_intro _ e (conj He eq_refl))) _).
    refine (conj _ (conj eq_refl (conj eq_refl (conj eq_refl eq_refl)))).
    now exists ("An error occurred: " ++ str_exn e)%string,
               [st_error remediation_hint].
Qed.

(** The theorem on an empty key and on a key that is not JSON. *)
Lemma C5_demo_bad_keys :
  snd (app demo_env EmptyString (Some demo_file) true [])
  = [st_error missing_key_message]
  /\ json_loads demo_env "not json"
     = Raise (Exception "Expecting value: line 1 column 1 (char 0)")
  /\ external_calls (snd (app demo_env EmptyString (Some demo_file) true [])) = []
  /\ external_calls (snd (app demo_env "not json" (Some demo_file) true [])) = [].
Proof.
  refine (conj eq_refl (conj eq_refl (conj _ _))).
  - exact (proj1 (proj2 (proj2 (proj2 (proj2
             (C5_bad_credentials_stop_before_any_call demo_env EmptyString
                demo_file (or_introl eq_refl))))))).
  - exact (proj1 (proj2 (proj2 (proj2 (proj2
             (C5_bad_credentials_stop_before_any_call demo_env "not json"
                demo_file
                (or_intror (ex_intro _
                   (Exception "Expecting value: line 1 column 1 (char 0)")
                   eq_refl)))))))).
Defined.

Lemma external_calls_app (t1 t2 : trace) :
  external_calls (t1 ++ t2) = external_calls t1 ++ external_calls t2.
Proof. unfold external_calls. apply filter_app. Qed.

Section Failure.

Variable E : Env.

(** The requests made by the loop are requests for the pending pages, in
    order, each at most once: nothing is asked twice and nothing is asked
    after a failure. *)
Lemma ocr_events_calls_prefix (c : client E) (n : nat)
      (items : list (nat * bytes)) :
  exists rest,
    map (fun img => text_detection_call img arabic) (map snd items)
    = external_calls (ocr_events E c n items) ++ rest.
Proof.
  induction items as [|[i img] items' IH].
  - now exists [].
  - cbn [map snd ocr_events]. destruct (recognise E c img) as [text|e].
    + destruct IH as [rest IH]. exists rest.
      change (external_calls (text_detection_call img arabic
                :: progress_bar_progress (fraction (i + 1) n)
                :: ocr_events E c n items'))
        with (text_detection_call img arabic
                :: external_calls (ocr_events E c n items')).
      cbn [List.app]. now rewrite IH.
    + now exists (map (fun img => text_detection_call img arabic)
                      (map snd items')).
Qed.

(** The trace of the recognition loop does not depend on what the
    answers say, only on whether there is an answer. *)
Lemma ocr_events_with_answers (f : response -> response) (c : client E)
      (n : nat) (items : list (nat * bytes)) :
  ocr_events (with_answers E f) c n items = ocr_events E c n items.
Proof.
  induction items as [|[i img] rest IH]; [reflexivity|].
  cbn [ocr_events]. rewrite IH. unfold recognise.
  cbn [text_detection with_answers].
  now destruct (text_detection E c img arabic).
Qed.

Lemma recognise_all_with_answers_raise (f : response -> response)
      (c : client E) (image_list : list bytes) (e : exn) :
  recognise_all E c image_list = Raise e ->
  recognise_all (with_answers E f) c image_list = Raise e.
Proof.
  induction image_list as [|img rest IH]; [discriminate|].
  cbn [recognise_all]. unfold recognise. cbn [text_detection with_answers].
  destruct (text_detection E c img arabic) as [r|e0]; [|easy].
  destruct (recognise_all E c rest) as [texts|e1]; [discriminate|].
  intros H. now rewrite (IH H).
Qed.

Lemma rasterize_with_answers (f : response -> response) (pdf_bytes : bytes) :
  rasterize (with_answers E f) pdf_bytes = rasterize E pdf_bytes.
Proof. reflexivity. Qed.

Lemma make_client_with_answers (f : response -> response) (key : string) :
  make_client (with_answers E f) key = make_client E key.
Proof. reflexivity. Qed.

(** What the body of [try] leaves behind in each of the three ways it
    can fail. *)
Lemma try_body_failure (api_key_json_str : string)
      (uploaded_file : UploadedFile) (e : exn) :
  (make_client E api_key_json_str = Raise e
   \/ (exists c, make_client E api_key_json_str = Ok c
                 /\ rasterize E (getvalue uploaded_file) = Raise e)
   \/ (exists c image_list,
         make_client E api_key_json_str = Ok c
         /\ rasterize E (getvalue uploaded_file) = Ok image_list
         /\ recognise_all E c image_list = Raise e)) ->
  exists t',
    try_body E api_key_json_str uploaded_file [] = (Raise e, t')
    /\ downloads t' = []
    /\ filter is_error t' = []
    /\ (exists rest,
          planned_calls E (getvalue uploaded_file) = external_calls t' ++ rest)
    /\ forall f,
         try_body (with_answers E f) api_key_json_str uploaded_file []
         = (Raise e, t').
Proof.
  intros [Hc | [(c & Hc & Hr) | (c & image_list & Hc & Hr & Ho)]].
  - exists []. split; [now rewrite try_body_eval, Hc|].
    refine (conj eq_refl (conj eq_refl (conj _ _))).
    + now exists (planned_calls E (getvalue uploaded_file)).
    + intros f. now rewrite try_body_eval, make_client_with_answers, Hc.
  - eexists. split.
    { rewrite try_body_eval, Hc, process_pdf_eval, Hr. reflexivity. }
    refine (conj eq_refl (conj eq_refl (conj _ _))).
    + exists []. unfold planned_calls. now rewrite Hr.
    + intros f.
      rewrite try_body_eval, make_client_with_answers, Hc.
      rewrite process_pdf_eval, rasterize_with_answers, Hr. reflexivity.
  - eexists. split.
    { rewrite try_body_eval, Hc, process_pdf_eval, Hr, Ho. reflexivity. }
    cbn [List.app].
    refine (conj _ (conj _ (conj _ _))).
    + change (st_spinner_enter spinner_text :: ?l)
        with ([st_spinner_enter spinner_text] ++ l).
      rewrite !downloads_app. unfold recognition_events.
      change (downloads (st_info ?a :: st_progress ?b :: ?l)) with (downloads l).
      now rewrite ocr_events_no_download.
    + unfold rasterization_events, recognition_events. cbn [List.app filter is_error].
      rewrite filter_app. cbn [filter is_error]. rewrite app_nil_r.
      clear. generalize (enumerate image_list).
      intros items. induction items as [|[i img] rest IH]; [reflexivity|].
      cbn [ocr_events filter is_error].
      destruct (recognise E c img); [exact IH | reflexivity].
    + destruct (ocr_events_calls_prefix c (List.length image_list)
                  (enumerate image_list)) as [rest Hrest].
      rewrite enumerate_snd in Hrest.
      exists rest. unfold planned_calls. rewrite Hr, Hrest.
      change (st_spinner_enter spinner_text :: ?l)
        with ([st_spinner_enter spinner_text] ++ l).
      rewrite !external_calls_app. unfold recognition_events.
      change (external_calls (st_info ?a :: st_progress ?b :: ?l))
        with (external_calls l).
      cbn [external_calls filter rasterization_events List.app
           is_rasterizer_call is_ocr_call orb].
      now rewrite app_nil_r.
    + intros f.
      rewrite try_body_eval, make_client_with_answers, Hc.
      rewrite process_pdf_eval, rasterize_with_answers, Hr.
      rewrite (recognise_all_with_answers_raise f c image_list e Ho).
      unfold recognition_events. now rewrite ocr_events_with_answers.
Qed.

End Failure.

(** C6.  Whichever step raises -- building the client from the
    credential string, rasterizing the PDF, or the request for some page
    -- the exception ends the body of [try]; the script then reports the
    exception's message and the remediation hint, and stops.  Nothing was
    reported as an error before, nothing is offered for download, every
    step that ran was called once and nothing was called after the
    failure (the calls made are an initial part of the calls of a
    complete run), and what the user saw does not depend on what the
    service answered for the pages that had succeeded: the recognised text
    of those pages is not shown. *)
Theorem C6_any_failure_ends_the_run :
  forall (E : Env) (api_key_json_str : string) (uploaded_file : UploadedFile)
         (e : exn),
    str_is_empty api_key_json_str = false ->
    (make_client E api_key_json_str = Raise e
     \/ (exists c, make_client E api_key_json_str = Ok c
                   /\ rasterize E (getvalue uploaded_file) = Raise e)
     \/ (exists c image_list,
           make_client E api_key_json_str = Ok c
           /\ rasterize E (getvalue uploaded_file) = Ok image_list
           /\ recognise_all E c image_list = Raise e)) ->
    let run := app E api_key_json_str (Some uploaded_file) true [] in
    exists t',
      try_body E api_key_json_str uploaded_file [] = (Raise e, t')
      /\ run = (Ok tt,
                t' ++ [st_error ("An error occurred: " ++ str_exn e)%string;
                       st_error remediation_hint])
      /\ filter is_error t' = []
      /\ downloads (snd run) = []
      /\ (exists rest,
            planned_calls E (getvalue uploaded_file)
            = external_calls (snd run) ++ rest)
      /\ (forall f,
            app (with_answers E f) api_key_json_str (Some uploaded_file) true []
            = run).
Proof.
  intros E key file e Hkey Hfail run.
  destruct (try_body_failure E key file e Hfail)
    as (t' & Hbody & Hdl & Herr & [rest Hcalls] & Hanswers).
  assert (Hrun : run = (Ok tt, t' ++ error_report e)).
  { subst run. now rewrite (app_with_key E key file Hkey), Hbody. }
  exists t'. rewrite Hrun. cbn [snd].
  refine (conj Hbody (conj eq_refl (conj Herr (conj _ (conj _ _))))).
  - now rewrite downloads_app, Hdl.
  - exists rest. rewrite external_calls_app.
    cbn [external_calls error_report filter is_rasterizer_call is_ocr_call orb].
    now rewrite app_nil_r.
  - intros f. rewrite (app_with_key (with_answers E f) key file Hkey).
    now rewrite Hanswers.
Qed.

(** The theorem on the demo upload whose second page is refused. *)
Lemma C6_demo_quota_failure :
  str_is_empty demo_key = false
  /\ recognise_all demo_env tt ["a"; "!"; "c"]
     = Raise (Exception "429 Quota exceeded")
  /\ exists t',
       app demo_env demo_key (Some demo_file_refused) true []
       = (Ok tt,
          t' ++ [st_error "An error occurred: 429 Quota exceeded";
                 st_error remediation_hint])
       /\ downloads (snd (app demo_env demo_key (Some demo_file_refused) true []))
          = [].
Proof.
  refine (conj eq_refl (conj eq_refl _)).
  destruct (C6_any_failure_ends_the_run demo_env demo_key demo_file_refused
              (Exception "429 Quota exceeded") eq_refl
              (or_intror (or_intror
                 (ex_intro _ tt (ex_intro _ ["a"; "!"; "c"]
                    (conj eq_refl (conj eq_refl eq_refl)))))))
    as (t' & _ & Hrun & _ & Hdl & _).
  exists t'. split; assumption.
Defined.

(** ** The language hint *)

Section Hint.

Variable E : Env.

Lemma ocr_events_hinted (c : client E) (n : nat) (items : list (nat * bytes)) :
  Forall hinted_arabic (ocr_events E c n items).
Proof.
  induction items as [|[i img] rest IH]; [constructor|].
  cbn [ocr_events]. constructor.
  - intros img' ctx Heq. now injection Heq as _ <-.
  - destruct (recognise E c img); constructor; [not_a_request | exact IH].
Qed.

Lemma process_pdf_hinted (uploaded_file : UploadedFile) (c : client E) :
  Forall hinted_arabic (snd (process_pdf E uploaded_file c [])).
Proof.
  rewrite process_pdf_eval.
  destruct (rasterize E (getvalue uploaded_file)) as [image_list|e].
  - destruct (recognise_all E c image_list) as [full_text|e];
      cbn [snd List.app]; unfold rasterization_events, recognition_events;
      cbn [List.app];
      repeat (apply Forall_cons; [not_a_request|]);
      (apply Forall_app; split; [apply ocr_events_hinted|]);
      repeat (apply Forall_cons; [not_a_request|]); constructor.
  - cbn [snd List.app rasterization_events].
    repeat (apply Forall_cons; [not_a_request|]). constructor.
Qed.

Lemma app_hinted (api_key_json_str : string)
      (uploaded_file : option UploadedFile) (start_clicked : bool) :
  Forall hinted_arabic
         (snd (app E api_key_json_str uploaded_file start_clicked [])).
Proof.
  destruct uploaded_file as [file|]; [|constructor].
  destruct start_clicked; [|constructor].
  rewrite app_eval.
  destruct (str_is_empty api_key_json_str).
  { repeat (apply Forall_cons; [not_a_request|]). constructor. }
  rewrite try_body_eval.
  destruct (make_client E api_key_json_str) as [c|e].
  - pose proof (process_pdf_hinted file c) as Hp.
    destruct (process_pdf E file c []) as [[v|e] t']; cbn [snd] in *.
    + apply Forall_app. split; [exact Hp|].
      repeat (apply Forall_cons; [not_a_request|]). constructor.
    + apply Forall_app. split; [exact Hp|].
      repeat (apply Forall_cons; [not_a_request|]). constructor.
  - cbn [snd List.app error_report].
    repeat (apply Forall_cons; [not_a_request|]). constructor.
Qed.

End Hint.

(** C7.  Every request carries the language hint ["ar"]: this holds for
    the call [detect_text_in_image] makes and for every request in the
    trace of any run of the script.  When the response to that request
    holds annotations, the function returns the description of the first
    one. *)
Theorem C7_arabic_hint_and_first_annotation :
  (forall (E : Env) (image_bytes : bytes) (c : client E) (t : trace),
      snd (detect_text_in_image E image_bytes c t)
      = t ++ [text_detection_call image_bytes {| language_hints := ["ar"] |}])
  /\ (forall (E : Env) (image_bytes : bytes) (c : client E) (t : trace)
             (r : response) (first : annotation) (others : list annotation),
         text_detection E c image_bytes {| language_hints := ["ar"] |} = Ok r ->
         text_annotations r = first :: others ->
         fst (detect_text_in_image E image_bytes c t) = Ok (description first))
  /\ (forall (E : Env) (api_key_json_str : string)
             (uploaded_file : option UploadedFile) (start_clicked : bool),
         Forall hinted_arabic
                (snd (app E api_key_json_str uploaded_file start_clicked []))).
Proof.
  refine (conj _ (conj _ _)).
  - intros E image_bytes c t. now rewrite detect_text_in_image_eval.
  - intros E image_bytes c t r first others Hr Hfirst.
    rewrite detect_text_in_image_eval. cbn [fst].
    unfold recognise, arabic. rewrite Hr. unfold page_text. now rewrite Hfirst.
  - intros E key file clicked. apply app_hinted.
Qed.

(** The theorem on the first page of the demo upload, whose response
    holds two annotations. *)
Lemma C7_demo_first_annotation :
  text_detection demo_env tt "a" {| language_hints := ["ar"] |}
  = Ok {| text_annotations :=
            [ {| description := "a" |}; {| description := "word" |} ] |}
  /\ detect_text_in_image demo_env "a" tt []
     = (Ok "a", [text_detection_call "a" {| language_hints := ["ar"] |}]).
Proof.
  split; [reflexivity|].
  pose proof (proj1 C7_arabic_hint_and_first_annotation demo_env "a" tt [])
    as Htrace.
  pose proof (proj1 (proj2 C7_arabic_hint_and_first_annotation)
                demo_env "a" tt [] _ _ _ eq_refl eq_refl) as Hvalue.
  destruct (detect_text_in_image demo_env "a" tt []) as [r t].
  cbn [fst snd] in *. now rewrite Htrace, Hvalue.
Defined.

(** ** Determinism in the inputs and the answers *)

Section Answers.

Variable E : Env.

Lemma recognise_all_answers (c : client E) (image_list : list bytes) :
  recognise_all E c image_list
  = texts_of_answers
      (map (fun img => text_detection E c img arabic) image_list).
Proof.
  induction image_list as [|img rest IH]; [reflexivity|].
  cbn [recognise_all map texts_of_answers]. unfold recognise.
  destruct (text_detection E c img arabic) as [r|e]; [|reflexivity].
  now rewrite IH.
Qed.

(** A run that succeeded went through every step. *)
Lemma try_body_ok_inv (api_key_json_str : string) (uploaded_file : UploadedFile)
      (v : locals) (t : trace) :
  try_body E api_key_json_str uploaded_file [] = (Ok v, t) ->
  exists c image_list full_text doc,
    make_client E api_key_json_str = Ok c
    /\ rasterize E (getvalue uploaded_file) = Ok image_list
    /\ recognise_all E c image_list = Ok full_text
    /\ build_doc E full_text = Ok doc
    /\ v = locals_of E uploaded_file image_list full_text doc
    /\ downloads t = [txt_data (v_txt_output v); docx_data (v_doc v)].
Proof.
  intros H.
  destruct (make_client E api_key_json_str) as [c|e] eqn:Hc.
  2:{ rewrite try_body_eval, Hc in H. discriminate. }
  destruct (rasterize E (getvalue uploaded_file)) as [image_list|e] eqn:Hr.
  2:{ rewrite try_body_eval, Hc, process_pdf_eval, Hr in H. discriminate. }
  destruct (recognise_all E c image_list) as [full_text|e] eqn:Ho.
  2:{ rewrite try_body_eval, Hc, process_pdf_eval, Hr, Ho in H. discriminate. }
  destruct (build_doc E full_text) as [doc|e] eqn:Hd.
  2:{ rewrite try_body_eval, Hc, process_pdf_eval, Hr, Ho, Hd in H.
      discriminate. }
  rewrite (try_body_success E api_key_json_str uploaded_file c image_list
             full_text doc Hc Hr Ho Hd) in H.
  injection H as <- <-.
  exists c, image_list, full_text, doc.
  refine (conj eq_refl (conj eq_refl (conj Ho (conj Hd (conj eq_refl _))))).
  exact (success_trace_downloads E c (getvalue uploaded_file) image_list
           (locals_of E uploaded_file image_list full_text doc)).
Qed.

End Answers.

(** C10.  Take two runs on the same credential string and the same
    uploaded file (name and bytes), possibly against different libraries
    and a different service.  If both succeed and the service gave the
    same answers page by page, then both runs recognised the same page
    texts, produced the same plain-text buffer and the same structured
    document (the same paragraphs and page breaks in the same order), and
    offer the same two payloads for download. *)
Theorem C10_outputs_determined_by_answers :
  forall (E1 E2 : Env) (api_key_json_str : string)
         (uploaded_file : UploadedFile)
         (c1 : client E1) (c2 : client E2)
         (v1 v2 : locals) (t1 t2 : trace),
    make_client E1 api_key_json_str = Ok c1 ->
    make_client E2 api_key_json_str = Ok c2 ->
    try_body E1 api_key_json_str uploaded_file [] = (Ok v1, t1) ->
    try_body E2 api_key_json_str uploaded_file [] = (Ok v2, t2) ->
    map (fun img => text_detection E1 c1 img {| language_hints := ["ar"] |})
        (v_image_list v1)
    = map (fun img => text_detection E2 c2 img {| language_hints := ["ar"] |})
          (v_image_list v2) ->
    v_full_text v1 = v_full_text v2
    /\ v_txt_output v1 = v_txt_output v2
    /\ v_doc v1 = v_doc v2
    /\ downloads t1 = downloads t2.
Proof.
  intros E1 E2 key file c1 c2 v1 v2 t1 t2 Hc1 Hc2 Hrun1 Hrun2 Hanswers.
  destruct (try_body_ok_inv E1 key file v1 t1 Hrun1)
    as (c1' & imgs1 & texts1 & doc1 & Hc1' & _ & Ho1 & Hdoc1 & Hv1 & Hd1).
  destruct (try_body_ok_inv E2 key file v2 t2 Hrun2)
    as (c2' & imgs2 & texts2 & doc2 & Hc2' & _ & Ho2 & Hdoc2 & Hv2 & Hd2).
  rewrite Hc1 in Hc1'. injection Hc1' as <-.
  rewrite Hc2 in Hc2'. injection Hc2' as <-.
  assert (Htexts : texts1 = texts2).
  { rewrite recognise_all_answers in Ho1, Ho2.
    rewrite Hv1, Hv2 in Hanswers. cbn [v_image_list locals_of] in Hanswers.
    fold arabic in Hanswers. rewrite Hanswers, Ho2 in Ho1.
    now injection Ho1. }
  assert (Hdocs : doc1 = doc2).
  { apply build_doc_ok_iff in Hdoc1, Hdoc2.
    destruct Hdoc1 as [_ ->]. destruct Hdoc2 as [_ ->]. now rewrite Htexts. }
  rewrite Hd1, Hd2. subst v1 v2 texts2 doc2.
  cbn [locals_of v_full_text v_txt_output v_doc]. repeat split.
Qed.

(** The theorem on the four-page demo upload, read through two
    environments whose rasterizers produce different images and whose
    services answer alike. *)
Lemma C10_demo_two_environments :
  v_image_list (locals_of demo_env demo_file ["a"; "b"; " "; "c"] [] [])
  <> v_image_list (locals_of demo_env' demo_file ["aa"; "bb"; "  "; "cc"] [] [])
  /\ exists v1 t1 v2 t2,
       try_body demo_env demo_key demo_file [] = (Ok v1, t1)
       /\ try_body demo_env' demo_key demo_file [] = (Ok v2, t2)
       /\ v_txt_output v1 = v_txt_output v2
       /\ v_doc v1 = v_doc v2.
Proof.
  split; [discriminate|].
  destruct (try_body demo_env demo_key demo_file []) as [[v1|e1] t1] eqn:H1;
    [|discriminate H1].
  destruct (try_body demo_env' demo_key demo_file []) as [[v2|e2] t2] eqn:H2;
    [|discriminate H2].
  exists v1, t1, v2, t2.
  refine (conj eq_refl (conj eq_refl _)).
  assert (Hanswers :
    map (fun img => text_detection demo_env tt img {| language_hints := ["ar"] |})
        (v_image_list v1)
    = map (fun img => text_detection demo_env' 7 img {| language_hints := ["ar"] |})
          (v_image_list v2)).
  { injection H1 as <- _. injection H2 as <- _. reflexivity. }
  destruct (C10_outputs_determined_by_answers demo_env demo_env' demo_key
              demo_file tt 7 v1 v2 t1 t2 eq_refl eq_refl H1 H2 Hanswers)
    as (_ & Htxt & Hdoc & _).
  split; assumption.
Defined.

(** * Further properties of the script *)

(** ** Rasterization *)

Section Rasterization.

Variable E : Env.

(** The loop stops at the first page that fails, with that page's
    exception. *)
Lemma render_pages_first_failure (d : pdf_document E) (k : nat) (e : exn) :
  render_page E d k = Raise e ->
  forall n a,
    a <= k < a + n ->
    (forall i, a <= i < k -> exists png, render_page E d i = Ok png) ->
    render_pages E d (seq a n) = Raise e.
Proof.
  intros Hk. induction n as [|n IH]; intros a Hrange Hbefore; [lia|].
  cbn [seq render_pages].
  destruct (Nat.eq_dec a k) as [->|Hne].
  - now rewrite Hk.
  - destruct (Hbefore a) as [png Hpng]; [lia|]. rewrite Hpng.
    rewrite (IH (S a)); [reflexivity | lia |].
    intros i Hi. apply Hbefore. lia.
Qed.

End Rasterization.

(** X5.  [convert_pdf_to_images] always opens the document first and
    closes it exactly when every page was rendered: one close call when it
    returns the images, none when it raises. *)
Theorem X5_document_closed_iff_all_pages_rendered :
  forall (E : Env) (pdf_bytes : bytes),
    let r := convert_pdf_to_images E pdf_bytes [] in
    (exists rest, snd r = fitz_open_call pdf_bytes "pdf" :: rest
                  /\ filter is_rasterizer_call rest = [])
    /\ List.length (filter is_close (snd r)) = (if is_ok (fst r) then 1 else 0)
    /\ fst r = rasterize E pdf_bytes.
Proof.
  intros E pdf_bytes r. subst r. rewrite convert_pdf_to_images_eval.
  destruct (rasterize E pdf_bytes) as [image_list|e]; cbn [fst snd List.app].
  - split; [now exists [fitz_close_call]|]. now split.
  - split; [now exists []|]. now split.
Qed.

(** X6.  When the document opens and page [k] is the first one that
    cannot be rendered, [convert_pdf_to_images] raises the exception of
    page [k]; the later pages are not looked at (whether they render or
    not) and the document is left open: the trace holds the open call and
    no close call. *)
Theorem X6_first_unrenderable_page_aborts :
  forall (E : Env) (pdf_bytes : bytes) (d : pdf_document E) (k : nat)
         (e : exn) (t : trace),
    fitz_open E pdf_bytes "pdf" = Ok d ->
    k < len_pdf E d ->
    (forall i, i < k -> exists png, render_page E d i = Ok png) ->
    render_page E d k = Raise e ->
    convert_pdf_to_images E pdf_bytes t
    = (Raise e, t ++ [fitz_open_call pdf_bytes "pdf"]).
Proof.
  intros E pdf_bytes d k e t Hopen Hk Hbefore Hfail.
  rewrite convert_pdf_to_images_eval. unfold rasterize. rewrite Hopen.
  unfold range.
  rewrite (render_pages_first_failure E d k e Hfail (len_pdf E d) 0);
    [reflexivity | lia |].
  intros i Hi. apply Hbefore. lia.
Qed.

(** The theorem on the demo upload whose third page cannot be rendered. *)
Lemma X6_demo_unreadable_page :
  render_page demo_env_unreadable (list_ascii_of_string "ab?d") 2
  = Raise (Exception "cannot render page")
  /\ convert_pdf_to_images demo_env_unreadable "%PDFab?d" []
     = (Raise (Exception "cannot render page"),
        [fitz_open_call "%PDFab?d" "pdf"]).
Proof.
  split; [reflexivity|].
  apply (X6_first_unrenderable_page_aborts demo_env_unreadable "%PDFab?d"
           (list_ascii_of_string "ab?d") 2 (Exception "cannot render page") []
           eq_refl).
  - cbn. lia.
  - intros [|[|i]] Hi; [now exists "a" | now exists "b" | lia].
  - reflexivity.
Defined.

(** ** The recognition loop *)

Section Recognition.

Variable E : Env.

(** The loop emits requests and progress updates only. *)
Lemma filter_ocr_events (P : event -> bool) (c : client E) (n : nat)
      (items : list (nat * bytes)) :
  (forall img ctx, P (text_detection_call img ctx) = false) ->
  (forall q, P (progress_bar_progress q) = false) ->
  filter P (ocr_events E c n items) = [].
Proof.
  intros Hreq Hprog.
  induction items as [|[i img] rest IH]; [reflexivity|].
  cbn [ocr_events filter]. rewrite Hreq.
  destruct (recognise E c img); [|reflexivity].
  cbn [filter]. now rewrite Hprog.
Qed.

Lemma recognise_all_first_failure (c : client E) (answered : list bytes)
      (refused : bytes) (later : list bytes) (e : exn) :
  Forall (fun img => exists r, text_detection E c img arabic = Ok r) answered ->
  text_detection E c refused arabic = Raise e ->
  recognise_all E c (answered ++ refused :: later) = Raise e.
Proof.
  intros Hok Hbad. induction Hok as [|img rest [r Hr] _ IH].
  - cbn [List.app recognise_all]. unfold recognise. now rewrite Hbad.
  - cbn [List.app recognise_all]. unfold recognise. now rewrite Hr, IH.
Qed.

(** The events of the loop up to the first refusal. *)
Lemma ocr_events_first_failure (c : client E) (n : nat) (answered : list bytes)
      (refused : bytes) (later : list bytes) (e : exn) :
  Forall (fun img => exists r, text_detection E c img arabic = Ok r) answered ->
  text_detection E c refused arabic = Raise e ->
  forall k,
    ocr_events E c n
      (combine (seq k (List.length (answered ++ refused :: later)))
               (answered ++ refused :: later))
    = flat_map (fun '(i, img) =>
                  [request img; progress_bar_progress (fraction (i + 1) n)])
               (combine (seq k (List.length answered)) answered)
      ++ [request refused].
Proof.
  intros Hok Hbad. induction Hok as [|img rest [r Hr] _ IH]; intros k.
  - cbn [List.app List.length seq combine ocr_events flat_map].
    unfold recognise. now rewrite Hbad.
  - cbn [List.app List.length seq combine ocr_events flat_map].
    unfold recognise. rewrite Hr. unfold request at 1.
    cbn [List.app]. now rewrite (IH (S k)).
Qed.

(** When every page is answered, the requests are the page images in
    order. *)
Lemma external_calls_ocr_events_success (c : client E) (n : nat)
      (items : list (nat * bytes)) (texts : list string) :
  recognise_all E c (map snd items) = Ok texts ->
  external_calls (ocr_events E c n items) = map request (map snd items).
Proof.
  revert texts. induction items as [|[i img] rest IH]; intros texts H;
    [reflexivity|].
  cbn [map snd recognise_all] in H. cbn [ocr_events map snd].
  destruct (recognise E c img) as [text|e]; [|discriminate].
  destruct (recognise_all E c (map snd rest)) as [texts'|e]; [|discriminate].
  change (external_calls (text_detection_call img arabic
            :: progress_bar_progress (fraction (i + 1) n)
            :: ocr_events E c n rest))
    with (request img :: external_calls (ocr_events E c n rest)).
  now rewrite (IH texts').
Qed.

(** In every case the progress values are 1/n, 2/n, ... up to the number
    of pages that were answered before the loop ended. *)
Lemma progress_reports_ocr_events (c : client E) (n : nat) (images : list bytes) :
  forall k,
    exists m,
      m <= List.length images
      /\ progress_reports
           (ocr_events E c n (combine (seq k (List.length images)) images))
         = map (fun j => fraction j n) (seq (k + 1) m).
Proof.
  induction images as [|img rest IH]; intros k.
  - exists 0. split; [lia | reflexivity].
  - cbn [List.length seq combine ocr_events].
    destruct (recognise E c img) as [text|e].
    + destruct (IH (S k)) as (m & Hm & Hrep). exists (S m).
      split; [lia|].
      change (progress_reports (text_detection_call img arabic
                :: progress_bar_progress (fraction (k + 1) n) :: ?l))
        with (fraction (k + 1) n :: progress_reports l).
      rewrite Hrep. cbn [seq map].
      now replace (S k + 1) with (S (k + 1)) by lia.
    + exists 0. split; [lia | reflexivity].
Qed.

End Recognition.

(** ** Progress values *)

Lemma fraction_increasing (j k n : nat) :
  n <> 0 -> j < k -> (fraction j n < fraction k n)%Q.
Proof.
  intros Hn Hjk. rewrite !fraction_exact.
  unfold Qdiv, Qinv, inject_Z.
  destruct (Z.of_nat n) as [|p|p] eqn:Hp; try lia.
  cbn [Qnum Qden]. unfold Qlt, Qmult. cbn [Qnum Qden]. nia.
Qed.

Lemma fraction_positive (k n : nat) :
  n <> 0 -> 1 <= k -> (0 < fraction k n)%Q.
Proof.
  intros Hn Hk. rewrite fraction_exact.
  unfold Qdiv, Qinv, inject_Z.
  destruct (Z.of_nat n) as [|p|p] eqn:Hp; try lia.
  cbn [Qnum Qden]. unfold Qlt, Qmult. cbn [Qnum Qden]. nia.
Qed.

Lemma fractions_sorted (n : nat) :
  n <> 0 ->
  forall m a, StronglySorted Qlt (map (fun j => fraction j n) (seq a m)).
Proof.
  intros Hn. induction m as [|m IH]; intros a; [constructor|].
  cbn [seq map]. constructor; [apply IH|].
  apply Forall_forall. intros q Hq.
  apply in_map_iff in Hq. destruct Hq as (j & <- & Hj).
  apply in_seq in Hj. apply fraction_increasing; [exact Hn | lia].
Qed.

Lemma fractions_in_range (n m : nat) :
  m <= n ->
  Forall (fun q => (0 < q)%Q /\ (q <= 1)%Q)
         (map (fun j => fraction j n) (seq 1 m)).
Proof.
  intros Hm. apply Forall_forall. intros q Hq.
  apply in_map_iff in Hq. destruct Hq as (j & <- & Hj).
  apply in_seq in Hj. split.
  - apply fraction_positive; lia.
  - apply fraction_in_unit_interval; lia.
Qed.

(** ** The shape of every run *)

(** Once a file is chosen and the button pressed, a run has one of six
    shapes, according to the first step that does not answer. *)
Lemma app_trace_cases (E : Env) (api_key_json_str : string)
      (uploaded_file : UploadedFile) :
  let t := snd (app E api_key_json_str (Some uploaded_file) true []) in
  let pdf_bytes := getvalue uploaded_file in
  (str_is_empty api_key_json_str = true /\ t = [st_error missing_key_message])
  \/ (exists e,
        str_is_empty api_key_json_str = false
        /\ make_client E api_key_json_str = Raise e
        /\ t = error_report e)
  \/ (exists c e,
        str_is_empty api_key_json_str = false
        /\ make_client E api_key_json_str = Ok c
        /\ rasterize E pdf_bytes = Raise e
        /\ t = st_spinner_enter spinner_text
                 :: rasterization_events pdf_bytes false
                 ++ st_spinner_exit :: error_report e)
  \/ (exists c image_list e,
        str_is_empty api_key_json_str = false
        /\ make_client E api_key_json_str = Ok c
        /\ rasterize E pdf_bytes = Ok image_list
        /\ recognise_all E c image_list = Raise e
        /\ t = st_spinner_enter spinner_text
                 :: rasterization_events pdf_bytes true
                 ++ recognition_events E c image_list
                 ++ st_spinner_exit :: error_report e)
  \/ (exists c image_list full_text e,
        str_is_empty api_key_json_str = false
        /\ make_client E api_key_json_str = Ok c
        /\ rasterize E pdf_bytes = Ok image_list
        /\ recognise_all E c image_list = Ok full_text
        /\ build_doc E full_text = Raise e
        /\ t = st_spinner_enter spinner_text
                 :: rasterization_events pdf_bytes true
                 ++ recognition_events E c image_list
                 ++ st_info "Step 3/3: Preparing your files for download..."
                 :: st_spinner_exit :: error_report e)
  \/ (exists c image_list full_text doc,
        str_is_empty api_key_json_str = false
        /\ make_client E api_key_json_str = Ok c
        /\ rasterize E pdf_bytes = Ok image_list
        /\ recognise_all E c image_list = Ok full_text
        /\ build_doc E full_text = Ok doc
        /\ t = st_spinner_enter spinner_text
                 :: rasterization_events pdf_bytes true
                 ++ recognition_events E c image_list
                 ++ st_info "Step 3/3: Preparing your files for download..."
                 :: st_spinner_exit
                 :: success_tail
                      (locals_of E uploaded_file image_list full_text doc)).
Proof.
  intros t pdf_bytes. subst t pdf_bytes. rewrite app_eval.
  destruct (str_is_empty api_key_json_str) eqn:Hkey; [left; now split|].
  right. rewrite try_body_eval.
  destruct (make_client E api_key_json_str) as [c|e] eqn:Hc.
  { right. rewrite process_pdf_eval.
    destruct (rasterize E (getvalue uploaded_file)) as [image_list|e] eqn:Hr.
    - right.
      destruct (recognise_all E c image_list) as [full_text|e] eqn:Ho.
      + right. destruct (build_doc E full_text) as [doc|e] eqn:Hd.
        * right. exists c, image_list, full_text, doc.
          repeat (split; [first [reflexivity | assumption]|]).
          cbn [snd List.app]. rewrite <- ?app_assoc. reflexivity.
        * left. exists c, image_list, full_text, e.
          repeat (split; [first [reflexivity | assumption]|]).
          cbn [snd List.app]. rewrite <- ?app_assoc. reflexivity.
      + left. exists c, image_list, e.
        repeat (split; [first [reflexivity | assumption]|]).
        cbn [snd List.app]. rewrite <- ?app_assoc. reflexivity.
    - left. exists c, e.
      repeat (split; [first [reflexivity | assumption]|]).
      cbn [snd List.app]. rewrite <- ?app_assoc. reflexivity. }
  left. exists e. repeat (split; [first [reflexivity | assumption]|]).
  reflexivity.
Qed.

Lemma progress_reports_recognition_events (E : Env) (c : client E)
      (image_list : list bytes) :
  exists m,
    m <= List.length image_list
    /\ progress_reports (recognition_events E c image_list)
       = map (fun j => fraction j (List.length image_list)) (seq 1 m).
Proof.
  destruct (progress_reports_ocr_events E c (List.length image_list)
              image_list 0) as (m & Hm & Hrep).
  exists m. split; [exact Hm|]. exact Hrep.
Qed.

(** X3.  In every run -- complete or cut short by a failure -- the
    values passed to the progress bar are 1/N, 2/N, ..., m/N for some
    m <= N, where N is the number of page images: each lies in (0, 1], as
    the progress bar requires, and each is larger than the one before. *)
Theorem X3_progress_values_increase_within_unit_interval :
  forall (E : Env) (api_key_json_str : string) (uploaded_file : UploadedFile)
         (start_clicked : bool),
    let reports :=
      progress_reports
        (snd (app E api_key_json_str (Some uploaded_file) start_clicked [])) in
    let N := match rasterize E (getvalue uploaded_file) with
             | Ok image_list => List.length image_list
             | Raise _ => 0
             end in
    exists m,
      m <= N
      /\ reports = map (fun k => fraction k N) (seq 1 m)
      /\ Forall (fun q => (0 < q)%Q /\ (q <= 1)%Q) reports
      /\ StronglySorted Qlt reports.
Proof.
  intros E key file clicked reports N.
  assert (Hshape : exists m,
             m <= N /\ reports = map (fun k => fraction k N) (seq 1 m)).
  { subst reports N. destruct clicked; [|exists 0; split; [lia | reflexivity]].
    assert (Hloop : forall c imgs tail,
      progress_reports tail = [] ->
      exists m,
        m <= List.length imgs
        /\ progress_reports
             (st_spinner_enter spinner_text
                :: rasterization_events (getvalue file) true
                ++ recognition_events E c imgs ++ tail)
           = map (fun k => fraction k (List.length imgs)) (seq 1 m)).
    { intros c imgs tail Htail.
      destruct (progress_reports_recognition_events E c imgs) as (m & Hm & Hrep).
      exists m. split; [exact Hm|].
      change (st_spinner_enter spinner_text :: ?l)
        with ([st_spinner_enter spinner_text] ++ l).
      rewrite !progress_reports_app, Hrep, Htail. cbn.
      now rewrite app_nil_r. }
    destruct (app_trace_cases E key file)
      as [[_ ->] | [(e & _ & _ & ->) | [(c & e & _ & _ & Hr & ->)
         | [(c & imgs & e & _ & _ & Hr & _ & ->)
           | [(c & imgs & texts & e & _ & _ & Hr & _ & _ & ->)
             | (c & imgs & texts & doc & _ & _ & Hr & _ & _ & ->)]]]]].
    - exists 0. split; [lia | reflexivity].
    - exists 0. split; [lia | reflexivity].
    - exists 0. split; [lia | reflexivity].
    - rewrite Hr. now apply Hloop.
    - rewrite Hr. now apply Hloop.
    - rewrite Hr. now apply Hloop. }
  destruct Hshape as (m & Hm & Hrep). exists m.
  refine (conj Hm (conj Hrep _)). rewrite Hrep. split.
  - now apply fractions_in_range.
  - destruct (Nat.eq_dec N 0) as [HN|HN].
    + replace m with 0 by lia. constructor.
    + now apply fractions_sorted.
Qed.

(** ** What the phases show *)

Section Phases.

Variable E : Env.
Variable c : client E.
Variable image_list : list bytes.

Lemma recognition_events_no_error :
  filter is_error (recognition_events E c image_list) = [].
Proof.
  unfold recognition_events. cbn [filter is_error is_success is_spinner].
  apply filter_ocr_events; reflexivity.
Qed.

Lemma recognition_events_no_success :
  filter is_success (recognition_events E c image_list) = [].
Proof.
  unfold recognition_events. cbn [filter is_error is_success is_spinner].
  apply filter_ocr_events; reflexivity.
Qed.

Lemma recognition_events_no_spinner :
  filter is_spinner (recognition_events E c image_list) = [].
Proof.
  unfold recognition_events. cbn [filter is_error is_success is_spinner].
  apply filter_ocr_events; reflexivity.
Qed.

Lemma recognition_events_no_download :
  downloads (recognition_events E c image_list) = [].
Proof. unfold recognition_events. apply ocr_events_no_download. Qed.

End Phases.

(** X1.  Every run of the script ends in exactly one of four ways:
    nothing is shown (no file chosen or button not pressed); the
    missing-key message alone; an error report (message and hint) as the
    last two events, with no success message and no download button
    anywhere; or the success message followed by the two download buttons
    as the last events, with no error shown anywhere.  Download buttons
    and an error never occur in the same run. *)
Theorem X1_run_outcomes_are_exclusive :
  forall (E : Env) (api_key_json_str : string)
         (uploaded_file : option UploadedFile) (start_clicked : bool),
    let t := snd (app E api_key_json_str uploaded_file start_clicked []) in
    t = []
    \/ t = [st_error missing_key_message]
    \/ (exists e before,
          t = before ++ error_report e
          /\ filter is_error before = []
          /\ filter is_success t = []
          /\ downloads t = [])
    \/ (exists v before,
          t = before ++ success_tail v
          /\ filter is_error t = []
          /\ filter is_success before = []
          /\ downloads before = []).
Proof.
  intros E key file clicked t. subst t.
  destruct file as [file|]; [|now left].
  destruct clicked; [|now left].
  right.
  destruct (app_trace_cases E key file)
    as [[_ ->] | [(e & _ & _ & ->) | [(c & e & _ & _ & _ & ->)
       | [(c & imgs & e & _ & _ & _ & _ & ->)
         | [(c & imgs & texts & e & _ & _ & _ & _ & _ & ->)
           | (c & imgs & texts & doc & _ & _ & _ & _ & _ & ->)]]]]].
  - now left.
  - right. left. exists e, []. now repeat split.
  - right. left. exists e.
    exists (st_spinner_enter spinner_text
              :: rasterization_events (getvalue file) false
              ++ [st_spinner_exit]).
    split; [cbn [List.app]; rewrite <- ?app_assoc; reflexivity|].
    now repeat split.
  - right. left. exists e.
    exists (st_spinner_enter spinner_text
              :: rasterization_events (getvalue file) true
              ++ recognition_events E c imgs ++ [st_spinner_exit]).
    split; [cbn [List.app]; rewrite <- ?app_assoc; reflexivity|].
    split; [|split].
    + cbn [filter is_error]. rewrite !filter_app, recognition_events_no_error.
      reflexivity.
    + cbn [filter is_success].
      rewrite !filter_app, recognition_events_no_success. reflexivity.
    + change (st_spinner_enter spinner_text :: ?l)
        with ([st_spinner_enter spinner_text] ++ l).
      rewrite !downloads_app, recognition_events_no_download. reflexivity.
  - right. left. exists e.
    exists (st_spinner_enter spinner_text
              :: rasterization_events (getvalue file) true
              ++ recognition_events E c imgs
              ++ [st_info "Step 3/3: Preparing your files for download...";
                  st_spinner_exit]).
    split; [cbn [List.app]; rewrite <- ?app_assoc; reflexivity|].
    split; [|split].
    + cbn [filter is_error]. rewrite !filter_app, recognition_events_no_error.
      reflexivity.
    + cbn [filter is_success].
      rewrite !filter_app, recognition_events_no_success. reflexivity.
    + change (st_spinner_enter spinner_text :: ?l)
        with ([st_spinner_enter spinner_text] ++ l).
      rewrite !downloads_app, recognition_events_no_download. reflexivity.
  - right. right. exists (locals_of E file imgs texts doc).
    exists (st_spinner_enter spinner_text
              :: rasterization_events (getvalue file) true
              ++ recognition_events E c imgs
              ++ [st_info "Step 3/3: Preparing your files for download...";
                  st_spinner_exit]).
    split; [cbn [List.app]; rewrite <- ?app_assoc; reflexivity|].
    split; [|split].
    + cbn [filter is_error]. rewrite !filter_app, recognition_events_no_error.
      reflexivity.
    + cbn [filter is_success].
      rewrite !filter_app, recognition_events_no_success. reflexivity.
    + change (st_spinner_enter spinner_text :: ?l)
        with ([st_spinner_enter spinner_text] ++ l).
      rewrite !downloads_app, recognition_events_no_download. reflexivity.
Qed.

Lemma external_calls_recognition_events (E : Env) (c : client E)
      (image_list : list bytes) :
  external_calls (recognition_events E c image_list)
  = external_calls (ocr_events E c (List.length image_list)
                               (enumerate image_list)).
Proof. reflexivity. Qed.

(** X12.  In every run the calls that leave the script are an initial
    part of the plan "open the PDF once, then one request per page image,
    in page order": the rasterizer is called at most once, no page is
    requested twice or out of order; and a run that shows the success
    message has made exactly the planned calls, one request for every
    page. *)
Theorem X12_calls_follow_the_plan :
  forall (E : Env) (api_key_json_str : string) (uploaded_file : UploadedFile)
         (start_clicked : bool),
    let t := snd (app E api_key_json_str (Some uploaded_file) start_clicked []) in
    let plan := planned_calls E (getvalue uploaded_file) in
    (exists rest, plan = external_calls t ++ rest)
    /\ List.length (filter is_rasterizer_call t) <= 1
    /\ (filter is_success t = [] \/ external_calls t = plan).
Proof.
  intros E key file clicked t plan. subst t plan.
  destruct clicked.
  2:{ split; [now exists (planned_calls E (getvalue file))|].
      split; [cbn; lia | now left]. }
  assert (Hall : forall c imgs texts tail,
    rasterize E (getvalue file) = Ok imgs ->
    recognise_all E c imgs = Ok texts ->
    filter (fun ev => is_rasterizer_call ev || is_ocr_call ev) tail = [] ->
    external_calls
      (st_spinner_enter spinner_text
         :: rasterization_events (getvalue file) true
         ++ recognition_events E c imgs ++ tail)
    = planned_calls E (getvalue file)
    /\ List.length
         (filter is_rasterizer_call
            (st_spinner_enter spinner_text
               :: rasterization_events (getvalue file) true
               ++ recognition_events E c imgs ++ tail)) <= 1).
  { intros c imgs texts tail Hr Ho Htail.
    assert (Hcalls :
      external_calls (ocr_events E c (List.length imgs) (enumerate imgs))
      = map (fun img => text_detection_call img arabic) imgs).
    { rewrite (external_calls_ocr_events_success E c _ _ texts)
        by now rewrite enumerate_snd.
      now rewrite enumerate_snd. }
    change (st_spinner_enter spinner_text :: ?l)
      with ([st_spinner_enter spinner_text] ++ l).
    split.
    - unfold planned_calls. rewrite Hr.
      rewrite !external_calls_app, external_calls_recognition_events, Hcalls.
      unfold external_calls at 3. rewrite Htail.
      cbn [external_calls filter rasterization_events List.app
           is_rasterizer_call is_ocr_call orb].
      now rewrite app_nil_r.
    - rewrite !filter_app. unfold recognition_events.
      cbn [filter is_rasterizer_call rasterization_events List.app].
      rewrite filter_ocr_events by reflexivity.
      assert (Hsub : filter is_rasterizer_call tail = []).
      { clear - Htail. induction tail as [|ev tail IH]; [reflexivity|].
        cbn [filter] in *. destruct (is_rasterizer_call ev); cbn [orb] in Htail.
        - discriminate.
        - destruct (is_ocr_call ev); [discriminate | now apply IH]. }
      rewrite Hsub. cbn. lia. }
  destruct (app_trace_cases E key file)
    as [[_ ->] | [(e & _ & _ & ->) | [(c & e & _ & _ & Hr & ->)
       | [(c & imgs & e & _ & _ & Hr & Ho & ->)
         | [(c & imgs & texts & e & _ & _ & Hr & Ho & _ & ->)
           | (c & imgs & texts & doc & _ & _ & Hr & Ho & _ & ->)]]]]].
  - split; [now exists (planned_calls E (getvalue file))|].
    split; [cbn; lia | now left].
  - split; [now exists (planned_calls E (getvalue file))|].
    split; [cbn; lia | now left].
  - unfold planned_calls. rewrite Hr.
    split; [now exists []|]. split; [cbn; lia | now left].
  - unfold planned_calls. rewrite Hr.
    destruct (ocr_events_calls_prefix E c (List.length imgs) (enumerate imgs))
      as [rest Hrest].
    rewrite enumerate_snd in Hrest.
    change (st_spinner_enter spinner_text :: ?l)
      with ([st_spinner_enter spinner_text] ++ l).
    split; [|split].
    + exists rest. rewrite !external_calls_app.
      rewrite external_calls_recognition_events.
      cbn [external_calls filter rasterization_events List.app
           is_rasterizer_call is_ocr_call orb error_report].
      fold (external_calls (ocr_events E c (List.length imgs) (enumerate imgs))).
      rewrite app_nil_r. now rewrite Hrest.
    + rewrite !filter_app. unfold recognition_events.
      cbn [filter is_rasterizer_call rasterization_events List.app error_report].
      rewrite filter_ocr_events by reflexivity. cbn. lia.
    + left. rewrite !filter_app, recognition_events_no_success. reflexivity.
  - destruct (Hall c imgs texts
                (st_info "Step 3/3: Preparing your files for download..."
                   :: st_spinner_exit :: error_report e) Hr Ho eq_refl)
      as [Hcalls Hone].
    split; [exists []; now rewrite Hcalls, app_nil_r|].
    split; [exact Hone | now right].
  - destruct (Hall c imgs texts
                (st_info "Step 3/3: Preparing your files for download..."
                   :: st_spinner_exit
                   :: success_tail (locals_of E file imgs texts doc))
                Hr Ho eq_refl)
      as [Hcalls Hone].
    split; [exists []; now rewrite Hcalls, app_nil_r|].
    split; [exact Hone | now right].
Qed.

(** X13.  The spinner brackets the processing in every run: either no
    spinner is shown and nothing is processed, or the trace is the
    spinner's appearance, then the processing, then the spinner's removal
    -- also when a step raised -- and after the removal come only
    messages and download buttons: no call to the rasterizer or the
    service and no progress update. *)
Theorem X13_spinner_brackets_the_processing :
  forall (E : Env) (api_key_json_str : string)
         (uploaded_file : option UploadedFile) (start_clicked : bool),
    let t := snd (app E api_key_json_str uploaded_file start_clicked []) in
    (filter is_spinner t = [] /\ external_calls t = []
     /\ progress_reports t = [])
    \/ (exists during after,
          t = st_spinner_enter spinner_text
                :: during ++ st_spinner_exit :: after
          /\ filter is_spinner during = []
          /\ filter is_spinner after = []
          /\ external_calls after = []
          /\ progress_reports after = []).
Proof.
  intros E key file clicked t. subst t.
  destruct file as [file|]; [|now left].
  destruct clicked; [|now left].
  destruct (app_trace_cases E key file)
    as [[_ ->] | [(e & _ & _ & ->) | [(c & e & _ & _ & _ & ->)
       | [(c & imgs & e & _ & _ & _ & _ & ->)
         | [(c & imgs & texts & e & _ & _ & _ & _ & _ & ->)
           | (c & imgs & texts & doc & _ & _ & _ & _ & _ & ->)]]]]].
  - now left.
  - now left.
  - right. exists (rasterization_events (getvalue file) false), (error_report e).
    now repeat split.
  - right.
    exists (rasterization_events (getvalue file) true
              ++ recognition_events E c imgs), (error_report e).
    split; [now rewrite <- app_assoc|].
    split; [|now repeat split].
    rewrite filter_app, recognition_events_no_spinner. reflexivity.
  - right.
    exists (rasterization_events (getvalue file) true
              ++ recognition_events E c imgs
              ++ [st_info "Step 3/3: Preparing your files for download..."]),
           (error_report e).
    split; [now rewrite <- !app_assoc|].
    split; [|now repeat split].
    rewrite !filter_app, recognition_events_no_spinner. reflexivity.
  - right.
    exists (rasterization_events (getvalue file) true
              ++ recognition_events E c imgs
              ++ [st_info "Step 3/3: Preparing your files for download..."]),
           (success_tail (locals_of E file imgs texts doc)).
    split; [now rewrite <- !app_assoc|].
    split; [|now repeat split].
    rewrite !filter_app, recognition_events_no_spinner. reflexivity.
Qed.

(** X4.  When the service answers the first pages and refuses the next
    one, the script has requested exactly those pages and the refused
    one, in order, and none of the later pages; it has shown one progress
    update for each answered page; and it ends with the refusal's message
    and the hint, offering nothing for download. *)
Theorem X4_first_refused_page_stops_the_requests :
  forall (E : Env) (api_key_json_str : string) (uploaded_file : UploadedFile)
         (c : client E) (answered : list bytes) (refused : bytes)
         (later : list bytes) (e : exn),
    str_is_empty api_key_json_str = false ->
    make_client E api_key_json_str = Ok c ->
    rasterize E (getvalue uploaded_file) = Ok (answered ++ refused :: later) ->
    Forall (fun img => exists r, text_detection E c img arabic = Ok r) answered ->
    text_detection E c refused arabic = Raise e ->
    let t := snd (app E api_key_json_str (Some uploaded_file) true []) in
    let N := List.length (answered ++ refused :: later) in
    external_calls t
    = fitz_open_call (getvalue uploaded_file) "pdf"
        :: map request (answered ++ [refused])
    /\ progress_reports t
       = map (fun k => fraction k N) (seq 1 (List.length answered))
    /\ (exists before,
          t = before ++ st_spinner_exit :: error_report e
          /\ filter is_error before = [])
    /\ downloads t = [].
Proof.
  intros E key file c answered refused later e Hkey Hc Hr Hok Hbad t N.
  pose proof (recognise_all_first_failure E c answered refused later e Hok Hbad)
    as Ho.
  assert (Ht : t = st_spinner_enter spinner_text
                     :: rasterization_events (getvalue file) true
                     ++ recognition_events E c (answered ++ refused :: later)
                     ++ st_spinner_exit :: error_report e).
  { subst t. rewrite (app_with_key E key file Hkey).
    rewrite try_body_eval, Hc, process_pdf_eval, Hr, Ho.
    cbn [snd List.app]. rewrite <- ?app_assoc. reflexivity. }
  assert (Hev : recognition_events E c (answered ++ refused :: later)
                = st_info ("Step 2/3: Sending " ++ str_nat N
                           ++ " pages to Google for OCR...")%string
                  :: st_progress 0
                  :: flat_map (fun '(i, img) =>
                       [request img; progress_bar_progress (fraction (i + 1) N)])
                       (combine (seq 0 (List.length answered)) answered)
                  ++ [request refused]).
  { unfold recognition_events, enumerate.
    now rewrite (ocr_events_first_failure E c _ answered refused later e Hok Hbad 0). }
  assert (Hend : exists before,
             t = before ++ st_spinner_exit :: error_report e
             /\ filter is_error before = []).
  { exists (st_spinner_enter spinner_text
              :: rasterization_events (getvalue file) true
              ++ recognition_events E c (answered ++ refused :: later)).
    split; [rewrite Ht; cbn [List.app]; now rewrite <- app_assoc|].
    cbn [filter is_error]. rewrite filter_app, recognition_events_no_error.
    reflexivity. }
  assert (Hdl : downloads t = []).
  { rewrite Ht.
    change (st_spinner_enter spinner_text :: ?l)
      with ([st_spinner_enter spinner_text] ++ l).
    rewrite !downloads_app, recognition_events_no_download. reflexivity. }
  refine (conj _ (conj _ (conj Hend Hdl))); rewrite Ht, Hev;
    change (st_spinner_enter spinner_text :: ?l)
      with ([st_spinner_enter spinner_text] ++ l);
    change (st_info ?a :: st_progress ?b :: ?l)
      with ([st_info a; st_progress b] ++ l);
    change (st_spinner_exit :: error_report e)
      with ([st_spinner_exit] ++ error_report e).
  - assert (Hcalls : forall k items,
      external_calls
        (flat_map (fun '(i, img) =>
           [request img; progress_bar_progress (fraction (i + 1) N)])
           (combine (seq k (List.length items)) items))
      = map request items).
    { intros k items. revert k.
      induction items as [|img rest IH]; intros k; [reflexivity|].
      cbn [List.length seq combine flat_map map]. rewrite external_calls_app.
      now rewrite (IH (S k)). }
    rewrite !external_calls_app, Hcalls, map_app.
    cbn [external_calls filter is_rasterizer_call is_ocr_call orb
         rasterization_events error_report request List.app map].
    now rewrite ?app_nil_r.
  - rewrite !progress_reports_app. unfold request.
    rewrite (progress_reports_alternating N answered 0).
    cbn [progress_reports flat_map List.app rasterization_events error_report].
    now rewrite !app_nil_r.
Qed.

(** The theorem on the demo upload whose third page is refused. *)
Lemma X4_demo_third_page_refused :
  rasterize demo_env (getvalue demo_file_third_refused)
  = Ok (["a"; "b"] ++ "!" :: ["d"])
  /\ external_calls
       (snd (app demo_env demo_key (Some demo_file_third_refused) true []))
     = [fitz_open_call "%PDFab!d" "pdf"; request "a"; request "b"; request "!"]
  /\ progress_reports
       (snd (app demo_env demo_key (Some demo_file_third_refused) true []))
     = [(1 # 4)%Q; (1 # 2)%Q].
Proof.
  split; [reflexivity|].
  assert (Hok : Forall (fun img => exists r,
                   text_detection demo_env tt img arabic = Ok r) ["a"; "b"]).
  { repeat constructor; eexists; reflexivity. }
  destruct (X4_first_refused_page_stops_the_requests demo_env demo_key
              demo_file_third_refused tt ["a"; "b"] "!" ["d"]
              (Exception "429 Quota exceeded")
              eq_refl eq_refl eq_refl Hok eq_refl)
    as (Hcalls & Hprog & _).
  split; [exact Hcalls | exact Hprog].
Defined.

(** X2.  The only exceptions a run can report are those of four library
    steps: if the body of [try] raises [e], then [e] was raised while
    building the client from the credential string, or by the rasterizer,
    or by the service for some page whose predecessors were all answered,
    or -- after every page was answered -- by the document library for
    the first page text it refuses.  In particular the script's own
    division by the page count never raises. *)
Theorem X2_reported_exceptions_come_from_four_library_steps :
  forall (E : Env) (api_key_json_str : string) (uploaded_file : UploadedFile)
         (e : exn) (t : trace),
    try_body E api_key_json_str uploaded_file [] = (Raise e, t) ->
    make_client E api_key_json_str = Raise e
    \/ (exists c, make_client E api_key_json_str = Ok c
                  /\ rasterize E (getvalue uploaded_file) = Raise e)
    \/ (exists c answered refused later,
          make_client E api_key_json_str = Ok c
          /\ rasterize E (getvalue uploaded_file)
             = Ok (answered ++ refused :: later)
          /\ Forall (fun img => exists r, text_detection E c img arabic = Ok r)
                    answered
          /\ text_detection E c refused arabic = Raise e)
    \/ (exists c image_list front text back,
          make_client E api_key_json_str = Ok c
          /\ rasterize E (getvalue uploaded_file) = Ok image_list
          /\ recognise_all E c image_list = Ok (front ++ text :: back)
          /\ forallb (text_accepted E) front = true
          /\ append_to_run_from_text E text EmptyString = Raise e).
Proof.
  intros E key file e t H.
  rewrite try_body_eval in H.
  destruct (make_client E key) as [c|e0] eqn:Hc.
  2:{ left. now injection H as <- _. }
  right. rewrite process_pdf_eval in H.
  destruct (rasterize E (getvalue file)) as [imgs|e0] eqn:Hr.
  2:{ left. exists c. split; [reflexivity|]. now injection H as <- _. }
  right.
  destruct (recognise_all E c imgs) as [texts|e0] eqn:Ho.
  { right. destruct (build_doc E texts) as [doc|e0] eqn:Hd; [discriminate|].
    injection H as <- _.
    destruct (forallb (text_accepted E) texts) eqn:Hacc.
    - rewrite (build_doc_accepted E texts Hacc) in Hd. discriminate.
    - destruct (first_refused E texts Hacc)
        as (front & text & back & e1 & -> & Hf & Hne & Hbad).
      unfold build_doc, enumerate in Hd.
      rewrite (build_doc_loop_refused E _ front text back e1 Hf Hne Hbad) in Hd.
      injection Hd as <-.
      exists c, imgs, front, text, back. now repeat split. }
  left. injection H as <- _. clear Hr.
  assert (Hsplit : exists answered refused later,
             imgs = answered ++ refused :: later
             /\ Forall (fun img => exists r, text_detection E c img arabic = Ok r)
                       answered
             /\ text_detection E c refused arabic = Raise e0).
  { induction imgs as [|img rest IH]; [discriminate|].
    cbn [recognise_all] in Ho. unfold recognise in Ho.
    destruct (text_detection E c img arabic) as [r|e1] eqn:Himg.
    - destruct (recognise_all E c rest) as [texts|e2]; [discriminate|].
      destruct (IH Ho) as (answered & refused & later & -> & Hok & Hbad).
      exists (img :: answered), refused, later.
      split; [reflexivity|]. split; [|exact Hbad].
      constructor; [now exists r | exact Hok].
    - injection Ho as <-. now exists [], img, rest. }
  destruct Hsplit as (answered & refused & later & -> & Hok & Hbad).
  exists c, answered, refused, later. now repeat split.
Qed.

(** The theorem on the demo upload whose third page is refused. *)
Lemma X2_demo_refusal_comes_from_the_service :
  fst (try_body demo_env demo_key demo_file_third_refused [])
  = Raise (Exception "429 Quota exceeded")
  /\ text_detection demo_env tt "!" arabic
     = Raise (Exception "429 Quota exceeded").
Proof.
  split; [reflexivity|].
  destruct (try_body demo_env demo_key demo_file_third_refused [])
    as [r t] eqn:Hrun.
  assert (Hr : r = Raise (Exception "429 Quota exceeded")).
  { now injection Hrun as <- _. }
  subst r.
  destruct (X2_reported_exceptions_come_from_four_library_steps demo_env
              demo_key demo_file_third_refused _ t Hrun)
    as [Hc | [(c & _ & Hr) | [(c & answered & refused & later & _ & Hr & _ & _)
       | (c & imgs & front & text & back & _ & _ & Ho & _)]]].
  - discriminate Hc.
  - discriminate Hr.
  - reflexivity.
  - reflexivity.
Defined.

(** ** The two output forms as functions of the page texts *)

Lemma with_page_breaks_app (a : paragraph) (front : list paragraph)
      (b : paragraph) (back : list paragraph) :
  with_page_breaks ((a :: front) ++ b :: back)
  = with_page_breaks (a :: front)
    ++ page_break_paragraph :: with_page_breaks (b :: back).
Proof.
  revert a. induction front as [|x front IH]; intros a.
  - reflexivity.
  - change ((a :: x :: front) ++ b :: back)
      with (a :: ((x :: front) ++ b :: back)).
    change ((x :: front) ++ b :: back) with (x :: (front ++ b :: back)) at 1.
    rewrite with_page_breaks_cons2.
    change (x :: (front ++ b :: back)) with ((x :: front) ++ b :: back).
    rewrite IH, with_page_breaks_cons2. reflexivity.
Qed.

Lemma build_doc_refused (E : Env) (front : list string) (text : string)
      (back : list string) (e : exn) :
  forallb (text_accepted E) front = true ->
  text <> EmptyString ->
  append_to_run_from_text E text EmptyString = Raise e ->
  build_doc E (front ++ text :: back) = Raise e.
Proof.
  intros Hf Hne Hbad. unfold build_doc, enumerate.
  exact (build_doc_loop_refused E _ front text back e Hf Hne Hbad 0 Document).
Qed.

(** ** Carriage returns and newlines in the structured document *)

Lemma str_concat_app (a b : list string) :
  str_concat (a ++ b) = (str_concat a ++ str_concat b)%string.
Proof.
  unfold str_concat. induction a as [|x a IH]; [reflexivity|].
  cbn [List.app fold_right]. now rewrite IH, str_append_assoc.
Qed.

(** Read back, a run made from a text is the text with carriage returns
    turned into newlines. *)
Lemma items_of_text_read_back (text : string) :
  forall bfr,
    str_concat (map item_text (items_of_text text bfr))
    = (bfr ++ normalise_newlines text)%string.
Proof.
  assert (Hflush : forall bfr rest,
    str_concat
      (map item_text
         (match bfr with EmptyString => [] | String _ _ => [r_text bfr] end
          ++ rest))
    = (bfr ++ str_concat (map item_text rest))%string).
  { intros bfr rest. destruct bfr as [|a bfr]; [reflexivity|].
    rewrite map_app, str_concat_app. cbn [map item_text str_concat fold_right].
    now rewrite str_append_nil_r. }
  induction text as [|char rest IH]; intros bfr.
  - cbn [items_of_text normalise_newlines].
    rewrite <- (app_nil_r (match bfr with
                           | EmptyString => []
                           | String _ _ => [r_text bfr]
                           end)).
    now rewrite Hflush.
  - cbn [items_of_text normalise_newlines].
    destruct (Ascii.eqb char TAB) eqn:Htab.
    + apply Ascii.eqb_eq in Htab. subst char.
      rewrite Hflush.
      change (r_tab :: items_of_text rest EmptyString)
        with ([r_tab] ++ items_of_text rest EmptyString).
      rewrite map_app, str_concat_app, IH. reflexivity.
    + destruct (Ascii.eqb char LF) eqn:Hlf.
      * apply Ascii.eqb_eq in Hlf. subst char. cbn [orb].
        rewrite Hflush.
        change (r_break LINE :: items_of_text rest EmptyString)
          with ([r_break LINE] ++ items_of_text rest EmptyString).
        rewrite map_app, str_concat_app, IH. reflexivity.
      * cbn [orb]. destruct (Ascii.eqb char CR) eqn:Hcr.
        -- rewrite Hflush.
           change (r_break LINE :: items_of_text rest EmptyString)
             with ([r_break LINE] ++ items_of_text rest EmptyString).
           rewrite map_app, str_concat_app, IH. reflexivity.
        -- rewrite IH. now rewrite str_append_assoc.
Qed.

Lemma page_paragraph_read_back (text : string) :
  paragraph_text (page_paragraph text) = normalise_newlines text.
Proof.
  unfold paragraph_text, page_paragraph. cbn [runs].
  destruct text as [|a text]; [reflexivity|].
  cbn [str_is_empty map str_concat fold_right].
  fold (str_concat (map item_text (items_of_text (String a text) EmptyString))).
  now rewrite items_of_text_read_back, str_append_nil_r.
Qed.

(** Neither the library's verdict nor the paragraph tells a carriage
    return from a newline. *)
Lemma append_to_run_from_text_normalised (E : Env) (text : string) :
  forall bfr,
    append_to_run_from_text E (normalise_newlines text) bfr
    = append_to_run_from_text E text bfr.
Proof.
  induction text as [|char rest IH]; intros bfr; [reflexivity|].
  cbn [normalise_newlines append_to_run_from_text].
  destruct (Ascii.eqb char CR) eqn:Hcr.
  - apply Ascii.eqb_eq in Hcr. subst char.
    change (Ascii.eqb LF TAB) with false. change (Ascii.eqb CR TAB) with false.
    change (Ascii.eqb LF LF) with true. change (Ascii.eqb CR CR) with true.
    change (Ascii.eqb CR LF) with false. cbn [orb].
    now rewrite IH.
  - cbv iota. rewrite ?Hcr. destruct (Ascii.eqb char TAB); [now rewrite IH|].
    destruct (Ascii.eqb char LF); cbn [orb]; now rewrite IH.
Qed.

Lemma items_of_text_normalised (text : string) :
  forall bfr,
    items_of_text (normalise_newlines text) bfr = items_of_text text bfr.
Proof.
  induction text as [|char rest IH]; intros bfr; [reflexivity|].
  cbn [normalise_newlines items_of_text].
  destruct (Ascii.eqb char CR) eqn:Hcr.
  - apply Ascii.eqb_eq in Hcr. subst char.
    change (Ascii.eqb LF TAB) with false. change (Ascii.eqb CR TAB) with false.
    change (Ascii.eqb LF LF) with true. change (Ascii.eqb CR CR) with true.
    change (Ascii.eqb CR LF) with false. cbn [orb].
    now rewrite IH.
  - cbv iota. rewrite ?Hcr. destruct (Ascii.eqb char TAB); [now rewrite IH|].
    destruct (Ascii.eqb char LF); cbn [orb]; now rewrite IH.
Qed.

Lemma page_paragraph_normalised (text : string) :
  page_paragraph (normalise_newlines text) = page_paragraph text.
Proof.
  unfold page_paragraph. rewrite items_of_text_normalised.
  now destruct text.
Qed.

Lemma text_accepted_normalised (E : Env) (text : string) :
  text_accepted E (normalise_newlines text) = text_accepted E text.
Proof.
  unfold text_accepted. rewrite append_to_run_from_text_normalised.
  now destruct text.
Qed.

Lemma str_join_app (sep a : string) (front : list string)
      (b : string) (back : list string) :
  str_join sep ((a :: front) ++ b :: back)
  = (str_join sep (a :: front) ++ sep ++ str_join sep (b :: back))%string.
Proof.
  revert a. induction front as [|x front IH]; intros a.
  - reflexivity.
  - change ((a :: x :: front) ++ b :: back)
      with (a :: ((x :: front) ++ b :: back)).
    change ((x :: front) ++ b :: back) with (x :: (front ++ b :: back)) at 1.
    rewrite str_join_cons2.
    change (x :: (front ++ b :: back)) with ((x :: front) ++ b :: back).
    rewrite IH, str_join_cons2. now rewrite !str_append_assoc.
Qed.

(** X7.  The structured document determines the page texts up to the
    difference between a carriage return and a newline, and no further:
    read back in order, the text paragraphs of a composed document are
    the page texts with every carriage return turned into a newline; so
    two lists that give the same document agree after that replacement,
    and two lists that agree after that replacement give the same
    document.  Zero pages and one blank page give different documents. *)
Theorem X7_document_determines_page_texts_up_to_newlines :
  forall (E : Env) (full_text1 full_text2 : list string) (doc : document),
    build_doc E full_text1 = Ok doc ->
    map paragraph_text (text_paragraphs doc)
    = map normalise_newlines full_text1
    /\ (build_doc E full_text2 = Ok doc <->
        map normalise_newlines full_text1 = map normalise_newlines full_text2).
Proof.
  intros E l1 l2 doc H1.
  apply build_doc_ok_iff in H1. destruct H1 as [Hacc1 ->].
  assert (Hread : forall l,
    map paragraph_text (text_paragraphs (with_page_breaks (map page_paragraph l)))
    = map normalise_newlines l).
  { intros l. rewrite text_paragraphs_with_page_breaks, map_map.
    apply map_ext. intros t. apply page_paragraph_read_back. }
  split; [apply Hread|]. split.
  - intros H2. apply build_doc_ok_iff in H2. destruct H2 as [_ H2].
    rewrite <- (Hread l1), <- (Hread l2). now rewrite H2.
  - intros Hsame. apply build_doc_ok_iff.
    assert (Hpar : forall l,
      map page_paragraph l = map page_paragraph (map normalise_newlines l)).
    { intros l. rewrite map_map. apply map_ext. intros t.
      now rewrite page_paragraph_normalised. }
    assert (Hacc : forall l,
      forallb (text_accepted E) l
      = forallb (text_accepted E) (map normalise_newlines l)).
    { intros l. induction l as [|t l IH]; [reflexivity|].
      cbn [map forallb]. now rewrite text_accepted_normalised, IH. }
    split.
    + now rewrite Hacc, <- Hsame, <- Hacc.
    + now rewrite (Hpar l1), Hsame, <- Hpar.
Qed.

(** The theorem on two one-page lists that differ in a carriage return
    and a newline, and on the lists of no page and of one blank page. *)
Lemma X7_demo_carriage_return_is_lost :
  build_doc demo_env [String "a" (String CR "b")]
  = Ok [ {| runs := [[r_text "a"; r_break LINE; r_text "b"]];
            alignment := Some RIGHT |} ]
  /\ build_doc demo_env [String "a" (String LF "b")]
     = build_doc demo_env [String "a" (String CR "b")]
  /\ build_doc demo_env [] <> build_doc demo_env [EmptyString].
Proof.
  split; [reflexivity|]. split; [|discriminate].
  destruct (X7_document_determines_page_texts_up_to_newlines demo_env
              [String "a" (String CR "b")] [String "a" (String LF "b")]
              _ eq_refl) as [_ [_ Hsame]].
  now rewrite (Hsame eq_refl).
Defined.

(** X8.  For page texts without a hyphen-minus, and at least one page,
    the plain-text output determines the page texts: two such lists with
    the same output are the same list. *)
Theorem X8_text_output_determines_dash_free_pages :
  forall (p : string) (rest : list string) (q : string) (rest' : list string),
    forallb dash_free (p :: rest) = true ->
    forallb dash_free (q :: rest') = true ->
    txt_output (p :: rest) = txt_output (q :: rest') ->
    p :: rest = q :: rest'.
Proof.
  intros p rest q rest' Hp Hq H.
  rewrite <- (read_pages_txt_output p rest Hp).
  rewrite <- (read_pages_txt_output q rest' Hq).
  now rewrite H.
Qed.

(** The theorem on a two-page list. *)
Lemma X8_demo_two_pages :
  forallb dash_free ["alif"; "ba"] = true
  /\ (txt_output ["alif"; "ba"] = txt_output ["alif"; "ba"]
      -> ["alif"; "ba"] = ["alif"; "ba"]).
Proof.
  split; [reflexivity|].
  exact (X8_text_output_determines_dash_free_pages "alif" ["ba"] "alif" ["ba"]
           eq_refl eq_refl).
Defined.

(** X9.  Composing the structured document commutes with concatenating
    page lists: the document of two non-empty lists put together is the
    document of the first, one page-break paragraph, and the document of
    the second; and it raises exactly when composing the first raises, or
    else composing the second does, with the same exception. *)
Theorem X9_document_of_concatenated_pages :
  forall (E : Env) (a : string) (front : list string)
         (b : string) (back : list string),
    build_doc E ((a :: front) ++ b :: back)
    = match build_doc E (a :: front) with
      | Raise e => Raise e
      | Ok doc1 =>
          match build_doc E (b :: back) with
          | Raise e => Raise e
          | Ok doc2 => Ok (doc1 ++ page_break_paragraph :: doc2)
          end
      end.
Proof.
  intros E a front b back.
  destruct (forallb (text_accepted E) (a :: front)) eqn:Hfront.
  - rewrite (build_doc_accepted E (a :: front) Hfront).
    destruct (forallb (text_accepted E) (b :: back)) eqn:Hback.
    + rewrite (build_doc_accepted E (b :: back) Hback).
      rewrite build_doc_accepted by (rewrite forallb_app; now rewrite Hfront, Hback).
      rewrite map_app. cbn [map]. f_equal.
      apply (with_page_breaks_app (page_paragraph a) (map page_paragraph front)
               (page_paragraph b) (map page_paragraph back)).
    + destruct (first_refused E (b :: back) Hback)
        as (pre & text & post & e & Heq & Hpre & Hne & Hbad).
      rewrite Heq at 2. rewrite (build_doc_refused E pre text post e Hpre Hne Hbad).
      rewrite Heq, app_assoc.
      apply build_doc_refused; try assumption.
      rewrite forallb_app. now rewrite Hfront, Hpre.
  - destruct (first_refused E (a :: front) Hfront)
      as (pre & text & post & e & Heq & Hpre & Hne & Hbad).
    rewrite Heq at 2. rewrite (build_doc_refused E pre text post e Hpre Hne Hbad).
    rewrite Heq, <- app_assoc. cbn [List.app].
    now apply build_doc_refused.
Qed.

(** X10.  The plain-text output of two non-empty page lists put together
    is the output of the first, one separator, and the joined pages of
    the second: the marker occurs once, at the start, and exactly one
    separator stands at the seam. *)
Theorem X10_text_of_concatenated_pages :
  forall (a : string) (front : list string) (b : string) (back : list string),
    txt_output ((a :: front) ++ b :: back)
    = (txt_output (a :: front) ++ page_break_separator
         ++ str_join page_break_separator (b :: back))%string
    /\ txt_output (b :: back)
       = (RLE ++ str_join page_break_separator (b :: back))%string.
Proof.
  intros a front b back. split; [|reflexivity].
  unfold txt_output. rewrite str_join_app. now rewrite !str_append_assoc.
Qed.

(** ** What the inputs are used for *)

(** X11.  The credential string is used for nothing but building the
    client: two credential strings (both empty or both not) from which the
    same client is built, or which fail with the same exception, give the
    same run, event for event.  The string itself is never shown. *)
Theorem X11_credential_string_only_builds_the_client :
  forall (E : Env) (key1 key2 : string) (uploaded_file : option UploadedFile)
         (start_clicked : bool),
    str_is_empty key1 = str_is_empty key2 ->
    make_client E key1 = make_client E key2 ->
    app E key1 uploaded_file start_clicked []
    = app E key2 uploaded_file start_clicked [].
Proof.
  intros E key1 key2 file clicked Hempty Hclient.
  destruct file as [file|]; [|reflexivity].
  destruct clicked; [|reflexivity].
  rewrite !app_eval, Hempty.
  destruct (str_is_empty key2); [reflexivity|].
  now rewrite !try_body_eval, Hclient.
Qed.

(** The theorem on two different keys that the demo libraries accept. *)
Lemma X11_demo_two_keys :
  demo_key <> "{ x }"
  /\ app demo_env demo_key (Some demo_file) true []
     = app demo_env "{ x }" (Some demo_file) true [].
Proof.
  split; [discriminate|].
  exact (X11_credential_string_only_builds_the_client demo_env demo_key "{ x }"
           (Some demo_file) true eq_refl eq_refl).
Defined.

(** X14.  The name of the uploaded file is used for nothing but the file
    names of the two downloads: two uploads with the same bytes and
    different names give the same run -- the same calls, messages,
    progress values and download payloads -- up to those two file names.
    In particular the name need not end in [.pdf]. *)
Theorem X14_upload_name_only_names_the_downloads :
  forall (E : Env) (api_key_json_str : string) (name1 name2 : string)
         (pdf_bytes : bytes) (start_clicked : bool),
    let run1 := app E api_key_json_str
                    (Some {| name := name1; getvalue := pdf_bytes |})
                    start_clicked [] in
    let run2 := app E api_key_json_str
                    (Some {| name := name2; getvalue := pdf_bytes |})
                    start_clicked [] in
    map forget_file_name (snd run1) = map forget_file_name (snd run2)
    /\ downloads (snd run1) = downloads (snd run2)
    /\ external_calls (snd run1) = external_calls (snd run2).
Proof.
  intros E key name1 name2 pdf_bytes clicked run1 run2. subst run1 run2.
  destruct clicked; [|now repeat split].
  rewrite !app_eval.
  destruct (str_is_empty key); [now repeat split|].
  rewrite !try_body_eval.
  destruct (make_client E key) as [c|e]; [|now repeat split].
  rewrite !process_pdf_eval. cbn [getvalue].
  destruct (rasterize E pdf_bytes) as [imgs|e]; [|now repeat split].
  destruct (recognise_all E c imgs) as [texts|e]; [|now repeat split].
  destruct (build_doc E texts) as [doc|e]; [|now repeat split].
  cbn [snd List.app].
  change (st_spinner_enter spinner_text :: ?l)
    with ([st_spinner_enter spinner_text] ++ l).
  rewrite !map_app, !downloads_app, !external_calls_app.
  now repeat split.
Qed.

Lemma filter_info_recognition_events (E : Env) (c : client E)
      (image_list : list bytes) :
  filter is_info (recognition_events E c image_list)
  = [st_info ("Step 2/3: Sending " ++ str_nat (List.length image_list)
              ++ " pages to Google for OCR...")%string].
Proof.
  unfold recognition_events. cbn [filter is_info].
  now rewrite filter_ocr_events.
Qed.

(** X15.  The status lines are shown in order and only as far as the run
    got: in every run the lines shown are the first k of "Step 1/3",
    "Step 2/3: Sending N pages ..." (N the number of page images) and
    "Step 3/3".  A run that offers the downloads has shown all three and
    no error; a run that has shown all three either offers both downloads
    or -- when composing the document raised -- ends with an error report
    and offers nothing; a run that has shown fewer offers nothing and
    shows no success message. *)
Theorem X15_status_lines_follow_the_steps :
  forall (E : Env) (api_key_json_str : string) (uploaded_file : UploadedFile)
         (start_clicked : bool),
    let t := snd (app E api_key_json_str (Some uploaded_file) start_clicked []) in
    let N := match rasterize E (getvalue uploaded_file) with
             | Ok image_list => List.length image_list
             | Raise _ => 0
             end in
    exists k,
      k <= 3
      /\ filter is_info t = firstn k (status_lines N)
      /\ ((k = 3 /\ filter is_error t = [] /\ List.length (downloads t) = 2)
          \/ (k = 3 /\ List.length (filter is_error t) = 2
              /\ filter is_success t = [] /\ downloads t = [])
          \/ (k <= 2 /\ filter is_success t = [] /\ downloads t = [])).
Proof.
  intros E key file clicked t N. subst t N.
  destruct clicked.
  2:{ exists 0. split; [lia|]. split; [reflexivity|].
      right. right. split; [lia | now split]. }
  destruct (app_trace_cases E key file)
    as [[_ ->] | [(e & _ & _ & ->) | [(c & e & _ & _ & Hr & ->)
       | [(c & imgs & e & _ & _ & Hr & _ & ->)
         | [(c & imgs & texts & e & _ & _ & Hr & _ & _ & ->)
           | (c & imgs & texts & doc & _ & _ & Hr & _ & _ & ->)]]]]].
  - exists 0. split; [lia|]. split; [reflexivity|].
    right. right. split; [lia | now split].
  - exists 0. split; [lia|]. split; [reflexivity|].
    right. right. split; [lia | now split].
  - exists 1. split; [lia|]. split; [reflexivity|].
    right. right. split; [lia | now split].
  - exists 2. split; [lia|]. rewrite Hr.
    change (st_spinner_enter spinner_text :: ?l)
      with ([st_spinner_enter spinner_text] ++ l).
    split; [|right; right; split; [lia|split]].
    + rewrite !filter_app, filter_info_recognition_events. reflexivity.
    + rewrite !filter_app, recognition_events_no_success. reflexivity.
    + rewrite !downloads_app, recognition_events_no_download. reflexivity.
  - exists 3. split; [lia|]. rewrite Hr.
    change (st_spinner_enter spinner_text :: ?l)
      with ([st_spinner_enter spinner_text] ++ l).
    split; [|right; left; split; [reflexivity|split; [|split]]].
    + rewrite !filter_app, filter_info_recognition_events. reflexivity.
    + rewrite !filter_app, recognition_events_no_error. reflexivity.
    + rewrite !filter_app, recognition_events_no_success. reflexivity.
    + rewrite !downloads_app, recognition_events_no_download. reflexivity.
  - exists 3. split; [lia|]. rewrite Hr.
    change (st_spinner_enter spinner_text :: ?l)
      with ([st_spinner_enter spinner_text] ++ l).
    split; [|left; split; [reflexivity|split]].
    + rewrite !filter_app, filter_info_recognition_events. reflexivity.
    + rewrite !filter_app, recognition_events_no_error. reflexivity.
    + rewrite !downloads_app, recognition_events_no_download. reflexivity.
Qed.

(** X16.  When every page is answered but the document library refuses
    a page text, the run has made every call of a complete run and shown
    every progress value up to 1 and all three status lines -- and then
    ends with the library's message and the hint, offering nothing for
    download: neither the structured document nor the plain-text file,
    although the plain text needed no library. *)
Theorem X16_refused_page_text_fails_after_all_requests :
  forall (E : Env) (api_key_json_str : string) (uploaded_file : UploadedFile)
         (c : client E) (image_list : list bytes)
         (front : list string) (text : string) (back : list string) (e : exn),
    str_is_empty api_key_json_str = false ->
    make_client E api_key_json_str = Ok c ->
    rasterize E (getvalue uploaded_file) = Ok image_list ->
    recognise_all E c image_list = Ok (front ++ text :: back) ->
    forallb (text_accepted E) front = true ->
    text <> EmptyString ->
    append_to_run_from_text E text EmptyString = Raise e ->
    let t := snd (app E api_key_json_str (Some uploaded_file) true []) in
    let N := List.length image_list in
    external_calls t = planned_calls E (getvalue uploaded_file)
    /\ progress_reports t = map (fun k => fraction k N) (seq 1 N)
    /\ filter is_info t = status_lines N
    /\ (exists before,
          t = before ++ st_spinner_exit :: error_report e
          /\ filter is_error before = [])
    /\ filter is_success t = []
    /\ downloads t = [].
Proof.
  intros E key file c imgs front text back e Hkey Hc Hr Ho Hf Hne Hbad t N.
  pose proof (build_doc_refused E front text back e Hf Hne Hbad) as Hd.
  assert (Ht : t = st_spinner_enter spinner_text
                     :: rasterization_events (getvalue file) true
                     ++ recognition_events E c imgs
                     ++ st_info "Step 3/3: Preparing your files for download..."
                     :: st_spinner_exit :: error_report e).
  { subst t. rewrite (app_with_key E key file Hkey).
    rewrite (try_body_composition_failure E key file c imgs _ e Hc Hr Ho Hd).
    cbn [snd List.app]. rewrite <- ?app_assoc. reflexivity. }
  assert (Hcalls :
    external_calls (ocr_events E c (List.length imgs) (enumerate imgs))
    = map (fun img => text_detection_call img arabic) imgs).
  { rewrite (external_calls_ocr_events_success E c _ _ (front ++ text :: back))
      by now rewrite enumerate_snd.
    now rewrite enumerate_snd. }
  rewrite Ht.
  change (st_spinner_enter spinner_text :: ?l)
    with ([st_spinner_enter spinner_text] ++ l).
  refine (conj _ (conj _ (conj _ (conj _ (conj _ _))))).
  - unfold planned_calls. rewrite Hr.
    rewrite !external_calls_app, external_calls_recognition_events, Hcalls.
    cbn [external_calls filter rasterization_events List.app error_report
         is_rasterizer_call is_ocr_call orb].
    now rewrite app_nil_r.
  - rewrite !progress_reports_app. unfold recognition_events.
    change (progress_reports (st_info ?a :: st_progress ?b :: ?l))
      with (progress_reports l).
    rewrite (ocr_events_success E c (List.length imgs) (enumerate imgs)
               (front ++ text :: back))
      by now rewrite enumerate_snd.
    unfold enumerate.
    rewrite (progress_reports_alternating (List.length imgs) imgs 0).
    cbn [progress_reports flat_map List.app rasterization_events error_report].
    now rewrite !app_nil_r.
  - rewrite !filter_app, filter_info_recognition_events. reflexivity.
  - exists ([st_spinner_enter spinner_text]
              ++ rasterization_events (getvalue file) true
              ++ recognition_events E c imgs
              ++ [st_info "Step 3/3: Preparing your files for download..."]).
    split; [now rewrite <- !app_assoc|].
    rewrite !filter_app, recognition_events_no_error. reflexivity.
  - rewrite !filter_app, recognition_events_no_success. reflexivity.
  - rewrite !downloads_app, recognition_events_no_download. reflexivity.
Qed.

(** The theorem on the demo upload whose second page is answered with a
    control character. *)
Lemma X16_demo_control_character :
  recognise_all demo_env tt ["a"; String (ascii_of_nat 1) EmptyString; "c"]
  = Ok (["a"] ++ String (ascii_of_nat 1) EmptyString :: ["c"])
  /\ List.length
       (external_calls
          (snd (app demo_env demo_key (Some demo_file_control) true []))) = 4
  /\ filter is_error
       (snd (app demo_env demo_key (Some demo_file_control) true []))
     = [st_error "An error occurred: All strings must be XML compatible: Unicode or ASCII, no NULL bytes or control characters";
        st_error remediation_hint]
  /\ downloads (snd (app demo_env demo_key (Some demo_file_control) true []))
     = [].
Proof.
  split; [reflexivity|].
  destruct (X16_refused_page_text_fails_after_all_requests demo_env demo_key
              demo_file_control tt
              ["a"; String (ascii_of_nat 1) EmptyString; "c"]
              ["a"] (String (ascii_of_nat 1) EmptyString) ["c"]
              (Exception "All strings must be XML compatible: Unicode or ASCII, no NULL bytes or control characters")
              eq_refl eq_refl eq_refl eq_refl eq_refl
              ltac:(discriminate) eq_refl)
    as (Hcalls & _ & _ & _ & _ & Hdl).
  split; [now rewrite Hcalls|]. split; [reflexivity | exact Hdl].
Defined.
